(** * HireBot backend: AI gateway retry policy and session workflow

    A shallow embedding of [hirebot-backend/index.js]: the retry loop of
    [callGeminiAPI], the fallback generators, the in-memory session
    registry and the route handlers that drive the analysis stages.

    Conventions.
    - The generative-AI provider and the file system are external; they
      appear as oracles ([provider], [filesystem]) over which every
      theorem quantifies.
    - A handler returns the mutated session, the HTTP response and the
      trace of gateway events (invocations, network posts, waits) it
      performed, in program order.
    - Sizes are byte counts in [N]; [x / (1024 * 1024) > k] on JavaScript
      numbers is the exact comparison [k * 1048576 < x] on bytes.
    - Prompt texts are not modelled: they only travel to the provider,
      which is arbitrary here.  Human-readable [message] fields of error
      bodies are likewise left out; the [error] field is kept. *)

From Stdlib Require Import ZArith NArith Lia Ascii String.
From stdpp Require Import gmap strings list fin_maps.

Local Open Scope string_scope.
Local Open Scope list_scope.

(** ** JavaScript strings and values *)

Module Js.

(** [hay.includes(needle)] *)
Fixpoint includes (needle hay : string) : bool :=
  String.prefix needle hay
  || match hay with
     | EmptyString => false
     | String _ rest => includes needle rest
     end.

(** The values stored in [session.results]: text, or [undefined] when
    the provider's first part carries no text. *)
Inductive value :=
| VUndefined
| VText (s : string).

#[export] Instance value_eq_dec : EqDecision value.
Proof. solve_decision. Defined.

(** JavaScript truthiness of a stored value ([!!v]). *)
Definition truthy (v : value) : bool :=
  match v with
  | VUndefined => false
  | VText s => negb (String.eqb s "")
  end.

(** Truthiness of a property read [obj[key]]; a missing key reads
    [undefined]. *)
Definition truthyAt (obj : gmap string value) (key : string) : bool :=
  match obj !! key with
  | Some v => truthy v
  | None => false
  end.

(** [a || b] on optional, possibly empty strings. *)
Definition orElse (a : option string) (b : string) : string :=
  match a with
  | Some s => if String.eqb s "" then b else s
  | None => b
  end.

(** [path.basename] on the upload paths multer produces
    ([uploads/<field>-<suffix><ext>], no trailing separator). *)
Fixpoint basename_go (acc s : string) : string :=
  match s with
  | EmptyString => acc
  | String c rest =>
      if Ascii.eqb c "/"%char then basename_go rest rest
      else basename_go acc rest
  end.

Definition basename (p : string) : string := basename_go p p.

End Js.

Import Js.

(** ** AI gateway: [callGeminiAPI] *)

Module Gateway.

(** An error object as the catch block inspects it:
    [error.response?.data?.error?.code],
    [error.response?.data?.error?.message] and [error.message]. *)
Record jsError := {
  responseCode : option Z;
  responseMessage : option string;
  message : string
}.

(** [new Error(msg)] *)
Definition newError (msg : string) : jsError :=
  {| responseCode := None; responseMessage := None; message := msg |}.

(** What one [axios.post] can come back with.  The code tests
    [candidates && candidates[0] && candidates[0].content] and then reads
    [content.parts[0].text] without a guard: either the first part can
    be read and its [text] (possibly [undefined]) is returned, or a
    read throws a TypeError inside the [try] (no [data], or a content
    without [parts] or without a first part), which the [catch] treats
    as any other error. *)
Inductive outcome :=
| Candidate (text : value)        (* content present, parts[0] readable *)
| Unreadable (typeError : string) (* reading the response throws; the
                                     TypeError's message *)
| NoCandidate                     (* response without candidates[0].content *)
| Rejected (e : jsError).         (* axios rejected the promise *)

(** The provider, by attempt number within one gateway invocation. *)
Definition provider := nat -> outcome.

(** [{ mimeType, data }]; of [data] only
    [Buffer.byteLength(data, 'base64')] is inspected. *)
Record fileData := {
  mimeType : string;
  byteLength : N
}.

Inductive event :=
| Invoke (retries : nat)   (* callGeminiAPI entered *)
| Post (attempt : nat)     (* axios.post issued *)
| Wait (ms : Z).           (* await delay(ms) *)

#[export] Instance event_eq_dec : EqDecision event.
Proof. solve_decision. Defined.

Inductive completion :=
| Returned (v : value)
| Thrown (msg : string).

Definition MB : N := 1024 * 1024.

(** [fileSizeMB > 20] *)
Definition payloadTooLarge (fd : option fileData) : bool :=
  match fd with
  | Some f => (20 * MB <? byteLength f)%N
  | None => false
  end.

(** The body of the [try] block for one attempt. *)
Definition tryAttempt (api : provider) (fd : option fileData) (attempt : nat)
  : (value + jsError) * list event :=
  if payloadTooLarge fd then
    (inr (newError "File too large for processing. Please use a smaller file (< 20MB)."), [])
  else
    match api attempt with
    | Candidate text => (inl text, [Post attempt])
    | Unreadable typeError => (inr (newError typeError), [Post attempt])
    | NoCandidate =>
        (inr (newError "Invalid response format from Gemini API"), [Post attempt])
    | Rejected e => (inr e, [Post attempt])
    end.

(** [waitTimes[attempt - 1] || 300000] with
    [waitTimes = [30000, 120000, 300000]]. *)
Definition overloadWait (attempt : nat) : Z :=
  match attempt with
  | 1%nat => 30000%Z
  | 2%nat => 120000%Z
  | _ => 300000%Z
  end.

Definition codeIs (c : option Z) (n : Z) : bool :=
  match c with
  | Some k => (k =? n)%Z
  | None => false
  end.

(** The [for] loop; [fuel] counts the iterations still allowed, so that
    [attempt + fuel = retries + 1] throughout. *)
Fixpoint attempts (api : provider) (fd : option fileData) (retries : nat)
    (fuel attempt : nat) : completion * list event :=
  match fuel with
  | O => (Returned VUndefined, [])
  | S fuel' =>
      match tryAttempt api fd attempt with
      | (inl text, ev) => (Returned text, ev)
      | (inr error, ev) =>
          let errorCode := responseCode error in
          let errorMessage := orElse (responseMessage error) (message error) in
          let continue (ms : Z) :=
            let (r, ev') := attempts api fd retries fuel' (S attempt) in
            (r, ev ++ Wait ms :: ev') in
          if codeIs errorCode 503 || includes "overloaded" errorMessage then
            if (attempt <? retries)%nat then continue (overloadWait attempt)
            else (Thrown "OVERLOADED", ev)
          else if codeIs errorCode 429 then
            if (attempt <? retries)%nat then continue (30000 * Z.of_nat attempt)%Z
            else (Thrown "RATE_LIMITED", ev)
          else if codeIs errorCode 400 then
            (Thrown ("INVALID_REQUEST: " +:+ errorMessage), ev)
          else if (attempt =? retries)%nat then
            (Thrown ("FAILED_AFTER_RETRIES: " +:+ errorMessage), ev)
          else continue (5000 * Z.of_nat attempt)%Z
      end
  end.

Definition callGeminiAPI (api : provider) (fd : option fileData) (retries : nat)
  : completion * list event :=
  let (r, ev) := attempts api fd retries retries 1 in
  (r, Invoke retries :: ev).

(** Trace observations. *)
Definition isPost (e : event) : bool :=
  match e with Post _ => true | _ => false end.
Definition isInvoke (e : event) : bool :=
  match e with Invoke _ => true | _ => false end.
Definition posts (t : list event) : nat := length (filter isPost t).
Definition invocations (t : list event) : nat := length (filter isInvoke t).

End Gateway.

Import Gateway.

(** ** Sessions *)

Module Session.

Inductive media := audio | video.

#[export] Instance media_eq_dec : EqDecision media.
Proof. solve_decision. Defined.

(** The string the code keeps in [session.mediaType]. *)
Definition mediaName (m : media) : string :=
  match m with
  | audio => "audio"
  | video => "video"
  end.

(** [mediaType.toUpperCase()] *)
Definition upperName (m : media) : string :=
  match m with
  | audio => "AUDIO"
  | video => "VIDEO"
  end.

Record session := {
  sessionId : string;
  audioPath : option string;
  videoPath : option string;
  cvPath : string;
  jobDescription : string;
  mediaType : media;
  status : string;
  createdAt : Z;
  completedAt : option Z;
  results : gmap string value
}.

(** [session.status = st] *)
Definition withStatus (st : string) (s : session) : session :=
  {| sessionId := sessionId s; audioPath := audioPath s;
     videoPath := videoPath s; cvPath := cvPath s;
     jobDescription := jobDescription s; mediaType := mediaType s;
     status := st; createdAt := createdAt s;
     completedAt := completedAt s; results := results s |}.

Definition withResults (r : gmap string value) (s : session) : session :=
  {| sessionId := sessionId s; audioPath := audioPath s;
     videoPath := videoPath s; cvPath := cvPath s;
     jobDescription := jobDescription s; mediaType := mediaType s;
     status := status s; createdAt := createdAt s;
     completedAt := completedAt s; results := r |}.

(** [session.results[key] = v] *)
Definition withResult (key : string) (v : value) (s : session) : session :=
  withResults (<[key := v]> (results s)) s.

(** [delete session.results[key]] *)
Definition withoutResult (key : string) (s : session) : session :=
  withResults (delete key (results s)) s.

(** [session.completedAt = new Date()] *)
Definition withCompletedAt (t : Z) (s : session) : session :=
  {| sessionId := sessionId s; audioPath := audioPath s;
     videoPath := videoPath s; cvPath := cvPath s;
     jobDescription := jobDescription s; mediaType := mediaType s;
     status := status s; createdAt := createdAt s;
     completedAt := Some t; results := results s |}.

(** [a || b] on optional paths, and [!!p]. *)
Definition orPath (a b : option string) : option string :=
  match a with
  | Some p => if String.eqb p "" then b else a
  | None => b
  end.

Definition truthyPath (p : option string) : bool :=
  match p with
  | Some s => negb (String.eqb s "")
  | None => false
  end.

End Session.

Import Session.

(** ** Fallback generators *)

Module Fallback.

Definition generateFallbackTranscription (fileName : string) (mediaType : media)
    (jobDescription : string) : string :=
  "
# "
  +:+ upperName mediaType
  +:+ " TRANSCRIPTION - FALLBACK MODE

**Note**: This is a fallback response generated because the AI service is currently overloaded. A placeholder transcription has been created to allow you to continue with the analysis workflow.

## Interview Recording Analysis Status
- **File**: "
  +:+ fileName
  +:+ "
- **Type**: "
  +:+ upperName mediaType
  +:+ " file
- **Status**: Pending AI processing
- **Reason**: AI service temporarily unavailable

## Next Steps
1. You can continue with the technical analysis using your CV and job description
2. Retry the "
  +:+ mediaName mediaType
  +:+ " transcription later when the service is available
3. Upload a smaller "
  +:+ mediaName mediaType
  +:+ " file if the current one is large

## Placeholder Analysis Structure

### Speaker Identification
- **Interviewer**: [To be identified when AI service is available]
- **Candidate**: [To be identified when AI service is available]

### Key Discussion Points
- Technical competency assessment
- Experience and background discussion
- Problem-solving approach
- Cultural fit evaluation

### Interview Summary
This "
  +:+ mediaName mediaType
  +:+ " recording will be analyzed for:
- Communication clarity and style
- Technical knowledge demonstration
- Response quality and depth
- Overall interview performance
"
  +:+ (match mediaType with
       | video => "- Facial expressions and body language
- Visual engagement and confidence"
       | audio => ""
       end)
  +:+ "

**To get the actual transcription"
  +:+ (match mediaType with video => " and face analysis" | audio => "" end)
  +:+ ", please retry this step when the AI service is available.**
  ".

Definition generateFallbackFaceAnalysis (fileName jobDescription : string) : string :=
  "
# FACE ANALYSIS - FALLBACK MODE

**Note**: This is a fallback response generated because the AI service is currently overloaded. A placeholder face analysis has been created to allow you to continue with the analysis workflow.

## Video Face Analysis Status
- **File**: "
  +:+ fileName
  +:+ "
- **Status**: Pending AI processing
- **Reason**: AI service temporarily unavailable

## Placeholder Analysis Structure

### Facial Expression Analysis
- **Confidence Indicators**: [To be analyzed when AI service is available]
- **Engagement Level**: [To be analyzed when AI service is available]
- **Emotional State**: [To be analyzed when AI service is available]

### Non-Verbal Communication
- **Eye Contact**: [To be analyzed when AI service is available]
- **Facial Gestures**: [To be analyzed when AI service is available]
- **Overall Demeanor**: [To be analyzed when AI service is available]

### Professional Presence
- **Visual Confidence**: [To be analyzed when AI service is available]
- **Attentiveness**: [To be analyzed when AI service is available]
- **Communication Style**: [To be analyzed when AI service is available]

**To get the actual face analysis, please retry this step when the AI service is available.**
  ".

Definition generateFallbackCVAnalysis (fileName jobDescription : string) : string :=
  "
# CV ANALYSIS - FALLBACK MODE

**Note**: This is a fallback response generated because the AI service is currently overloaded. A placeholder analysis has been created to allow you to continue with the workflow.

## CV Analysis Status
- **File**: "
  +:+ fileName
  +:+ "
- **Status**: Pending AI processing
- **Job Role**: "
  +:+ substring 0 100 jobDescription
  +:+ "...

## Placeholder Structure

### Personal Information
- Name: [To be extracted from CV]
- Contact: [To be extracted from CV]
- Title: [To be extracted from CV]

### Key Areas to Analyze
1. **Technical Skills**: Programming languages, frameworks, tools
2. **Experience**: Previous roles and responsibilities
3. **Education**: Degrees, certifications, training
4. **Projects**: Notable work and achievements
5. **Career Growth**: Progression and development

### Analysis Framework
- Skills alignment with job requirements
- Experience relevance assessment
- Growth potential evaluation
- Cultural fit indicators

**To get the detailed CV analysis, please retry this step when the AI service is available.**
  ".

End Fallback.

Import Fallback.

(** ** File helpers *)

Module Files.

(** The file system, read through [fs.stat] and [fs.readFile]: the byte
    size of the file at a path, or [None] when the call rejects. *)
Definition filesystem := string -> option N.

Definition lowerAscii (c : ascii) : ascii :=
  let n := nat_of_ascii c in
  if ((65 <=? n) && (n <=? 90))%nat then ascii_of_nat (n + 32) else c.

Fixpoint toLowerCase (s : string) : string :=
  match s with
  | EmptyString => EmptyString
  | String c rest => String (lowerAscii c) (toLowerCase rest)
  end.

Fixpoint extname_go (acc s : string) : string :=
  match s with
  | EmptyString => acc
  | String c rest =>
      if Ascii.eqb c "."%char then extname_go s rest
      else extname_go acc rest
  end.

(** [path.extname] on upload paths: from the last dot of the base name,
    a leading dot not counting. *)
Definition extname (p : string) : string :=
  match basename p with
  | EmptyString => ""
  | String _ rest => extname_go "" rest
  end.

Definition mimeTypes : list (string * string) :=
  [ (".pdf", "application/pdf");
    (".doc", "application/msword");
    (".docx", "application/vnd.openxmlformats-officedocument.wordprocessingml.document");
    (".txt", "text/plain");
    (".mp4", "video/mp4");
    (".avi", "video/x-msvideo");
    (".mov", "video/quicktime");
    (".wmv", "video/x-ms-wmv");
    (".webm", "video/webm");
    (".mp3", "audio/mpeg");
    (".wav", "audio/wav");
    (".wave", "audio/wav");
    (".aac", "audio/aac");
    (".ogg", "audio/ogg");
    (".flac", "audio/flac");
    (".m4a", "audio/m4a") ].

Fixpoint assoc (k : string) (l : list (string * string)) : option string :=
  match l with
  | [] => None
  | (k', v) :: rest => if String.eqb k k' then Some v else assoc k rest
  end.

Definition getMimeType (filePath : string) : string :=
  orElse (assoc (toLowerCase (extname filePath)) mimeTypes)
         "application/octet-stream".

(** [fileToBase64]: the base64 text of the file, of which the gateway
    inspects the decoded length only, i.e. the size of the file read;
    [None] when it throws "Failed to read file". *)
Definition fileToBase64 (fs : filesystem) (filePath : string) : option N :=
  fs filePath.

End Files.

Import Files.

(** ** Route handlers *)

Module Routes.

Inductive request :=
| AnalyzeCv
| TranscribeMedia
| FaceAnalysis
| Fallback (step : string)
| TechnicalAnalysis
| CommunicationAnalysis
| FinalReport
| Retry (step : string).

(** The path each route is mounted at; a redirect names its target by
    this path. *)
Definition location (r : request) (sessionId : string) : string :=
  match r with
  | AnalyzeCv => "/api/analyze-cv/" +:+ sessionId
  | TranscribeMedia => "/api/transcribe-media/" +:+ sessionId
  | FaceAnalysis => "/api/face-analysis/" +:+ sessionId
  | Fallback step => "/api/fallback/" +:+ sessionId +:+ "/" +:+ step
  | TechnicalAnalysis => "/api/technical-analysis/" +:+ sessionId
  | CommunicationAnalysis => "/api/communication-analysis/" +:+ sessionId
  | FinalReport => "/api/final-report/" +:+ sessionId
  | Retry step => "/api/retry/" +:+ sessionId +:+ "/" +:+ step
  end.

(** Error bodies: the [error] text, the optional lists and the hints. *)
Record failure := {
  error : string;
  missing : list string;
  availableSteps : list string;
  canUseFallback : bool;
  canRetry : bool
}.

Definition fail (msg : string) : failure :=
  {| error := msg; missing := []; availableSteps := [];
     canUseFallback := false; canRetry := false |}.

Definition failFallback (msg : string) : failure :=
  {| error := msg; missing := []; availableSteps := [];
     canUseFallback := true; canRetry := false |}.

Definition failRetry (msg : string) : failure :=
  {| error := msg; missing := []; availableSteps := [];
     canUseFallback := false; canRetry := true |}.

Inductive body :=
| Failed (f : failure)
| Produced (content : value) (nextStep : option string) (usedFallback : bool)
| Created (sessionId : string).

Inductive response :=
| Json (code : Z) (b : body)
| Redirect (code : Z) (target : request) (sessionId : string).

Record reply := {
  after : session;
  sent : response;
  trace : list event
}.

Definition respond (s : session) (r : response) (t : list event) : reply :=
  {| after := s; sent := r; trace := t |}.

(** [error.message.includes('OVERLOADED') || error.message.includes('503')] *)
Definition overloadSignal (msg : string) : bool :=
  includes "OVERLOADED" msg || includes "503" msg.

(** *** Step 1: [POST /api/analyze-cv/:sessionId] *)
Definition analyzeCv (fs : filesystem) (api : provider) (s : session) : reply :=
  let s := withStatus "analyzing_cv" s in
  let (r, ev) :=
    match fileToBase64 fs (cvPath s) with
    | None => (Thrown "Failed to read file", [])
    | Some cvBase64 =>
        callGeminiAPI api
          (Some {| mimeType := getMimeType (cvPath s);
                   byteLength := cvBase64 |}) 2
    end in
  match r with
  | Returned cvAnalysis =>
      respond (withStatus "cv_analyzed" (withResult "cvAnalysis" cvAnalysis s))
        (Json 200 (Produced cvAnalysis (Some "media_transcription") false)) ev
  | Thrown msg =>
      if overloadSignal msg then
        let cvAnalysis :=
          VText (generateFallbackCVAnalysis (basename (cvPath s))
                   (jobDescription s)) in
        respond
          (withResult "cvAnalysis" cvAnalysis
             (withStatus "cv_analyzed_fallback" s))
          (Json 200 (Produced cvAnalysis (Some "media_transcription") true)) ev
      else
        respond (withStatus "error" s)
          (Json 500 (Failed (failFallback "Failed to analyze CV"))) ev
  end.

(** *** Step 2: [POST /api/transcribe-media/:sessionId] *)

(** [mediaType === 'audio' ? 25 : 10] and [mediaType === 'audio' ? 20 : 8] *)
Definition maxSize (m : media) : N :=
  match m with audio => 25 | video => 10 end.
Definition processingSizeLimit (m : media) : N :=
  match m with audio => 20 | video => 8 end.
Definition showLimit (m : media) : string :=
  match m with audio => "20" | video => "8" end.

Definition nextAfterTranscription (m : media) : string :=
  match m with video => "face_analysis" | audio => "technical_analysis" end.

Definition transcribeMedia (fs : filesystem) (api : provider) (s : session)
  : reply :=
  let s := withStatus "transcribing_media" s in
  let mediaPath := orPath (videoPath s) (audioPath s) in
  let mediaType := mediaType s in
  (* the outer catch: status 'error', 500 *)
  let unexpected (t : list event) :=
    respond (withStatus "error" s)
      (Json 500 (Failed (failRetry "Failed to transcribe media"))) t in
  match mediaPath with
  | None =>
      respond s (Json 400 (Failed (fail "No media file found for transcription"))) []
  | Some path =>
      if String.eqb path "" then
        respond s (Json 400 (Failed (fail "No media file found for transcription"))) []
      else
      match fs path with
      | None => unexpected []          (* fs.stat rejects *)
      | Some size =>
          if (maxSize mediaType * MB <? size)%N then
            respond (withStatus "error" s)
              (Json 400 (Failed (fail (mediaName mediaType
                                        +:+ " file too large for processing")))) []
          else
            let (r, ev) :=
              if (processingSizeLimit mediaType * MB <? size)%N then
                (Thrown ("File too large for current API conditions ("
                         +:+ showLimit mediaType +:+ "MB limit)"), [])
              else
                match fileToBase64 fs path with
                | None => (Thrown "Failed to read file", [])
                | Some mediaBase64 =>
                    callGeminiAPI api
                      (Some {| mimeType := getMimeType path;
                               byteLength := mediaBase64 |}) 3
                end in
            match r with
            | Returned transcriptionResult =>
                respond
                  (withStatus (mediaName mediaType +:+ "_transcribed")
                     (withResult "transcription" transcriptionResult s))
                  (Json 200 (Produced transcriptionResult
                               (Some (nextAfterTranscription mediaType)) false)) ev
            | Thrown msg =>
                if overloadSignal msg then
                  let transcriptionResult :=
                    VText (generateFallbackTranscription (basename path)
                             mediaType (jobDescription s)) in
                  respond
                    (withResult "transcription" transcriptionResult
                       (withStatus (mediaName mediaType +:+ "_transcribed_fallback") s))
                    (Json 200 (Produced transcriptionResult
                                 (Some (nextAfterTranscription mediaType)) true)) ev
                else if includes "RATE_LIMITED" msg then
                  respond (withStatus "error" s)
                    (Json 429 (Failed (failFallback "Rate limit exceeded"))) ev
                else if includes "File too large" msg then
                  (* the message template reads [processingSizeLimit], a
                     const of the try block: ReferenceError, caught by
                     the outer catch *)
                  unexpected ev
                else
                  respond (withStatus "error" s)
                    (Json 500 (Failed (failFallback ("Failed to transcribe "
                                                     +:+ mediaName mediaType)))) ev
            end
      end
  end.

(** *** Step 3: [POST /api/face-analysis/:sessionId] *)
Definition faceAnalysis (fs : filesystem) (api : provider) (s : session)
  : reply :=
  let notVideo :=
    respond s (Json 400 (Failed (fail "Face analysis only available for video files"))) [] in
  match mediaType s, videoPath s with
  | audio, _ | video, None => notVideo
  | video, Some path =>
      if String.eqb path "" then notVideo else
      let s := withStatus "analyzing_face" s in
      match fs path with
      | None =>                        (* fs.stat rejects: outer catch *)
          respond (withStatus "error" s)
            (Json 500 (Failed (fail "Failed to analyze face"))) []
      | Some size =>
          if (10 * MB <? size)%N then
            respond (withStatus "error" s)
              (Json 400 (Failed (fail "Video file too large for face analysis"))) []
          else
            let (r, ev) :=
              if (8 * MB <? size)%N then
                (Thrown "File too large for face analysis processing (8MB limit)", [])
              else
                match fileToBase64 fs path with
                | None => (Thrown "Failed to read file", [])
                | Some videoBase64 =>
                    callGeminiAPI api
                      (Some {| mimeType := getMimeType path;
                               byteLength := videoBase64 |}) 3
                end in
            match r with
            | Returned faceAnalysisResult =>
                respond
                  (withStatus "face_analyzed"
                     (withResult "faceAnalysis" faceAnalysisResult s))
                  (Json 200 (Produced faceAnalysisResult
                               (Some "technical_analysis") false)) ev
            | Thrown msg =>
                if overloadSignal msg then
                  let faceAnalysisResult :=
                    VText (generateFallbackFaceAnalysis (basename path)
                             (jobDescription s)) in
                  respond
                    (withResult "faceAnalysis" faceAnalysisResult
                       (withStatus "face_analyzed_fallback" s))
                    (Json 200 (Produced faceAnalysisResult
                                 (Some "technical_analysis") true)) ev
                else if includes "RATE_LIMITED" msg then
                  respond (withStatus "error" s)
                    (Json 429 (Failed (failFallback "Rate limit exceeded"))) ev
                else if includes "File too large" msg then
                  respond (withStatus "error" s)
                    (Json 400 (Failed (fail "File too large for face analysis"))) ev
                else
                  respond (withStatus "error" s)
                    (Json 500 (Failed (failFallback "Failed to analyze face"))) ev
            end
      end
  end.

(** *** [POST /api/fallback/:sessionId/:step] *)
Definition fallbackSteps : list string :=
  ["cv_analysis"; "transcription"; "face_analysis"].

Definition fallback (step : string) (s : session) : reply :=
  (* the outer catch, reached when path.basename is handed undefined *)
  let unexpected :=
    respond s (Json 500 (Failed (fail "Failed to generate fallback response"))) [] in
  if String.eqb step "cv_analysis" then
    let result :=
      VText (generateFallbackCVAnalysis (basename (cvPath s)) (jobDescription s)) in
    respond
      (withStatus "cv_analyzed_fallback" (withResult "cvAnalysis" result s))
      (Json 200 (Produced result (Some "media_transcription") true)) []
  else if String.eqb step "transcription" then
    match orPath (videoPath s) (audioPath s) with
    | None => unexpected
    | Some path =>
        let result :=
          VText (generateFallbackTranscription (basename path) (mediaType s)
                   (jobDescription s)) in
        respond
          (withStatus (mediaName (mediaType s) +:+ "_transcribed_fallback")
             (withResult "transcription" result s))
          (Json 200 (Produced result
                       (Some (nextAfterTranscription (mediaType s))) true)) []
    end
  else if String.eqb step "face_analysis" then
    match mediaType s with
    | audio =>
        respond s (Json 400 (Failed (fail "Face analysis not available"))) []
    | video =>
        match videoPath s with
        | None => unexpected
        | Some path =>
            let result :=
              VText (generateFallbackFaceAnalysis (basename path)
                       (jobDescription s)) in
            respond
              (withStatus "face_analyzed_fallback"
                 (withResult "faceAnalysis" result s))
              (Json 200 (Produced result (Some "technical_analysis") true)) []
        end
    end
  else
    respond s
      (Json 400 (Failed {| error := "Fallback not available for this step";
                           missing := [];
                           availableSteps := fallbackSteps;
                           canUseFallback := false; canRetry := false |})) [].

(** *** Step 4: [POST /api/technical-analysis/:sessionId] *)
Definition technicalAnalysis (api : provider) (s : session) : reply :=
  if negb (truthyAt (results s) "transcription")
     || negb (truthyAt (results s) "cvAnalysis") then
    respond s (Json 400 (Failed (fail "Previous analysis steps not completed"))) []
  else
    let s := withStatus "analyzing_technical" s in
    match callGeminiAPI api None 3 with
    | (Returned technicalAnalysis, ev) =>
        respond
          (withStatus "technical_analyzed"
             (withResult "technicalAnalysis" technicalAnalysis s))
          (Json 200 (Produced technicalAnalysis
                       (Some "communication_analysis") false)) ev
    | (Thrown _, ev) =>
        respond s (Json 500 (Failed (fail "Failed to perform technical analysis"))) ev
    end.

(** *** Step 5: [POST /api/communication-analysis/:sessionId] *)
Definition communicationAnalysis (api : provider) (s : session) : reply :=
  if negb (truthyAt (results s) "transcription") then
    respond s (Json 400 (Failed (fail "Transcription not available"))) []
  else
    let s := withStatus "analyzing_communication" s in
    match callGeminiAPI api None 3 with
    | (Returned communicationAnalysis, ev) =>
        respond
          (withStatus "communication_analyzed"
             (withResult "communicationAnalysis" communicationAnalysis s))
          (Json 200 (Produced communicationAnalysis (Some "final_report") false)) ev
    | (Thrown _, ev) =>
        respond s
          (Json 500 (Failed (fail "Failed to perform communication analysis"))) ev
    end.

(** *** Step 6: [POST /api/final-report/:sessionId] *)
Definition requiredAnalyses : list string :=
  ["cvAnalysis"; "transcription"; "technicalAnalysis"; "communicationAnalysis"].

Definition missingAnalyses (s : session) : list string :=
  List.filter (fun analysis => negb (truthyAt (results s) analysis))
    requiredAnalyses.

Definition finalReport (api : provider) (now : Z) (s : session) : reply :=
  match missingAnalyses s with
  | (_ :: _) as missingNames =>
      respond s
        (Json 400 (Failed {| error := "Incomplete analysis";
                             missing := missingNames;
                             availableSteps := [];
                             canUseFallback := false; canRetry := false |})) []
  | [] =>
      let s := withStatus "generating_final_report" s in
      match callGeminiAPI api None 3 with
      | (Returned report, ev) =>
          respond
            (withCompletedAt now
               (withStatus "completed" (withResult "finalReport" report s)))
            (Json 200 (Produced report None false)) ev
      | (Thrown _, ev) =>
          respond s (Json 500 (Failed (fail "Failed to generate final report"))) ev
      end
  end.

(** *** [POST /api/retry/:sessionId/:step] *)
Definition retrySteps : list string :=
  ["cv_analysis"; "transcription"; "face_analysis"; "technical_analysis";
   "communication_analysis"; "final_report"].

Definition retry (step : string) (s : session) : reply :=
  let redirect (st key : string) (target : request) :=
    respond (withoutResult key (withStatus st s))
      (Redirect 307 target (sessionId s)) [] in
  if String.eqb step "cv_analysis" then
    redirect "initialized" "cvAnalysis" AnalyzeCv
  else if String.eqb step "transcription" then
    redirect "cv_analyzed" "transcription" TranscribeMedia
  else if String.eqb step "face_analysis" then
    redirect (mediaName (mediaType s) +:+ "_transcribed") "faceAnalysis"
      FaceAnalysis
  else if String.eqb step "technical_analysis" then
    let techStatus :=
      if truthyAt (results s) "faceAnalysis" then "face_analyzed"
      else mediaName (mediaType s) +:+ "_transcribed" in
    redirect techStatus "technicalAnalysis" TechnicalAnalysis
  else if String.eqb step "communication_analysis" then
    redirect "technical_analyzed" "communicationAnalysis" CommunicationAnalysis
  else if String.eqb step "final_report" then
    redirect "communication_analyzed" "finalReport" FinalReport
  else
    respond s
      (Json 400 (Failed {| error := "Invalid step";
                           missing := [];
                           availableSteps := retrySteps;
                           canUseFallback := false; canRetry := false |})) [].

(** *** The router *)

(** What a request meets outside the process: the files on disk, the
    provider's answers to this request's gateway call, and the clock. *)
Record env := {
  fs : filesystem;
  api : provider;
  now : Z
}.

Definition handle (e : env) (r : request) (s : session) : reply :=
  match r with
  | AnalyzeCv => analyzeCv (fs e) (api e) s
  | TranscribeMedia => transcribeMedia (fs e) (api e) s
  | FaceAnalysis => faceAnalysis (fs e) (api e) s
  | Fallback step => fallback step s
  | TechnicalAnalysis => technicalAnalysis (api e) s
  | CommunicationAnalysis => communicationAnalysis (api e) s
  | FinalReport => finalReport (api e) (now e) s
  | Retry step => retry step s
  end.

(** A client that honours the 307 re-issues the request at the target;
    [e'] is what that second request meets. *)
Definition followRedirect (e' : env) (rep : reply) : reply :=
  match sent rep with
  | Redirect _ target _ =>
      let rep' := handle e' target (after rep) in
      {| after := after rep'; sent := sent rep';
         trace := trace rep ++ trace rep' |}
  | Json _ _ => rep
  end.

(** The retry operation as one unit: reset, then the stage again. *)
Definition retryStage (e : env) (step : string) (s : session) : reply :=
  followRedirect e (retry step s).

(** [analysisSessions]: the registry, and a request against it. *)
Definition serve (e : env) (store : gmap string session) (id : string)
    (r : request) : gmap string session * response * list event :=
  match store !! id with
  | None => (store, Json 404 (Failed (fail "Session not found")), [])
  | Some s =>
      let rep := handle e r s in
      (<[id := after rep]> store, sent rep, trace rep)
  end.

(** *** [POST /api/initialize] *)
Module Upload.
Record file := {
  path : string;
  size : N;
  originalname : string
}.
End Upload.

Record upload := {
  audioFile : option Upload.file;
  videoFile : option Upload.file;
  cvFile : option Upload.file;
  jobDescriptionField : option string
}.

(** Whether an upload field came with the request. *)
Definition isSome {A : Type} (o : option A) : bool :=
  match o with
  | Some _ => true
  | None => false
  end.

Definition videoTooLarge (u : upload) : bool :=
  match videoFile u with
  | Some f => (10 * MB <? Upload.size f)%N
  | None => false
  end.

(** The handler of the route, on what the upload middleware leaves in
    [req.files] and [req.body] (the route as mounted, middleware first,
    is [Multer.initializeRoute]).  [newId] stands for the generated id,
    [now] for [new Date()]. *)
Definition initialize (newId : string) (now : Z) (u : upload)
    (store : gmap string session)
  : gmap string session * response * list event :=
  match cvFile u with
  | Some cv =>
      if (negb (isSome (audioFile u)) && negb (isSome (videoFile u)))
         || negb (truthyPath (jobDescriptionField u)) then
        (store, Json 400 (Failed (fail
           "Missing required fields: (audio OR video), cv, and jobDescription are required")), [])
      else if videoTooLarge u then
        (store, Json 400 (Failed (fail "Video file too large")), [])
      else
        let sessionData :=
          {| sessionId := newId;
             audioPath := Upload.path <$> audioFile u;
             videoPath := Upload.path <$> videoFile u;
             cvPath := Upload.path cv;
             jobDescription := default "" (jobDescriptionField u);
             mediaType := if isSome (videoFile u) then video else audio;
             status := "initialized";
             createdAt := now;
             completedAt := None;
             results := ∅ |} in
        (<[newId := sessionData]> store, Json 200 (Created newId), [])
  | None =>
      (store, Json 400 (Failed (fail
         "Missing required fields: (audio OR video), cv, and jobDescription are required")), [])
  end.

End Routes.

Import Routes.

(** ** Vocabulary of the properties *)

Module Policy.

(** [errorMessage] of the catch block. *)
Definition errorMessage (e : jsError) : string :=
  orElse (responseMessage e) (message e).

(** The error the [try] block raises for an outcome of the post. *)
Definition thrownBy (o : outcome) : option jsError :=
  match o with
  | Candidate _ => None
  | Unreadable typeError => Some (newError typeError)
  | NoCandidate => Some (newError "Invalid response format from Gemini API")
  | Rejected e => Some e
  end.

(** The classes the catch block tells apart, in the order it tests. *)
Inductive errorClass := Overloaded | RateLimited | BadRequest | OtherFailure.

Definition classify (e : jsError) : errorClass :=
  if codeIs (responseCode e) 503 || includes "overloaded" (errorMessage e)
  then Overloaded
  else if codeIs (responseCode e) 429 then RateLimited
  else if codeIs (responseCode e) 400 then BadRequest
  else OtherFailure.

(** The class of the failure the provider answers attempt [k] with. *)
Definition classAt (api : provider) (k : nat) : errorClass :=
  match thrownBy (api k) with
  | Some e => classify e
  | None => OtherFailure
  end.

(** The escalating schedule of an overload: 30 s after the first
    attempt, 2 min after the second, 5 min after the third and after
    any later one. *)
Definition overloadSchedule (attempt : nat) : Z :=
  match attempt with
  | 1%nat => 30000
  | 2%nat => 120000
  | _ => 300000
  end%Z.

(** The wait before the next attempt, by class: the overload schedule,
    30 s times the attempt number for a rate limit, 5 s times the
    attempt number for anything else. *)
Definition backoff (c : errorClass) (attempt : nat) : Z :=
  match c with
  | Overloaded => overloadSchedule attempt
  | RateLimited => 30000 * Z.of_nat attempt
  | BadRequest | OtherFailure => 5000 * Z.of_nat attempt
  end.

(** The message of the error that ends the call, by class. *)
Definition terminal (c : errorClass) (msg : string) : string :=
  match c with
  | Overloaded => "OVERLOADED"
  | RateLimited => "RATE_LIMITED"
  | BadRequest => "INVALID_REQUEST: " +:+ msg
  | OtherFailure => "FAILED_AFTER_RETRIES: " +:+ msg
  end.

(** Posts number [attempt], [attempt + 1], ... with a wait between
    consecutive ones: the trace of [fuel] failed attempts. *)
Fixpoint retryTrace (wait : nat -> Z) (fuel attempt : nat) : list event :=
  match fuel with
  | O => []
  | S O => [Post attempt]
  | S fuel' => Post attempt :: Wait (wait attempt) :: retryTrace wait fuel' (S attempt)
  end.

(** The six stages, their keys in [results], their names in the retry
    route and their endpoints. *)
Inductive stage :=
| CvAnalysis | Transcription | Face | Technical | Communication | Final.

Definition resultKey (st : stage) : string :=
  match st with
  | CvAnalysis => "cvAnalysis"
  | Transcription => "transcription"
  | Face => "faceAnalysis"
  | Technical => "technicalAnalysis"
  | Communication => "communicationAnalysis"
  | Final => "finalReport"
  end.

Definition stepName (st : stage) : string :=
  match st with
  | CvAnalysis => "cv_analysis"
  | Transcription => "transcription"
  | Face => "face_analysis"
  | Technical => "technical_analysis"
  | Communication => "communication_analysis"
  | Final => "final_report"
  end.

Definition primary (st : stage) : request :=
  match st with
  | CvAnalysis => AnalyzeCv
  | Transcription => TranscribeMedia
  | Face => FaceAnalysis
  | Technical => TechnicalAnalysis
  | Communication => CommunicationAnalysis
  | Final => FinalReport
  end.

(** The status values that say a stage is done, AI-produced first, then
    the fallback variant where the stage has one. *)
Definition completedValues (m : media) (st : stage) : list string :=
  match st with
  | CvAnalysis => ["cv_analyzed"; "cv_analyzed_fallback"]
  | Transcription =>
      [mediaName m +:+ "_transcribed"; mediaName m +:+ "_transcribed_fallback"]
  | Face => ["face_analyzed"; "face_analyzed_fallback"]
  | Technical => ["technical_analyzed"]
  | Communication => ["communication_analyzed"]
  | Final => ["completed"]
  end.

Definition isCompletedOf (s : session) (st : stage) : bool :=
  bool_decide (status s ∈ completedValues (mediaType s) st).

(** A stage's entry in [results] is there. *)
Definition populated (s : session) (st : stage) : bool :=
  bool_decide (is_Some (results s !! resultKey st)).

(** The status the state machine's forward order puts before a stage:
    the completed state of the stage that precedes it, [initialized]
    before the first; face analysis precedes the technical analysis
    only where it produced a result. *)
Definition predecessorCompleted (st : stage) (s : session) : string :=
  match st with
  | CvAnalysis => "initialized"
  | Transcription => "cv_analyzed"
  | Face => mediaName (mediaType s) +:+ "_transcribed"
  | Technical =>
      if truthyAt (results s) "faceAnalysis" then "face_analyzed"
      else mediaName (mediaType s) +:+ "_transcribed"
  | Communication => "technical_analyzed"
  | Final => "communication_analyzed"
  end.

(** Sessions as [/api/initialize] creates them. *)
Definition created (s : session) : Prop :=
  exists newId now u store,
    let '(store', resp, _) := initialize newId now u store in
    resp = Json 200 (Created newId) /\ store' !! newId = Some s.

(** The states a session passes through under requests from [allowed],
    whatever the files, the provider and the clock do. *)
Inductive reachable (allowed : request -> Prop) (s0 : session)
  : session -> Prop :=
| reach_start : reachable allowed s0 s0
| reach_step e r s :
    reachable allowed s0 s -> allowed r ->
    reachable allowed s0 (after (handle e r s)).

Definition anyRequest (r : request) : Prop := True.

Definition notRetry (r : request) : Prop :=
  match r with
  | Retry _ => False
  | _ => True
  end.

(** "[results[stage]] is populated if and only if [stageStatus] is that
    stage's completed value", at one session. *)
Definition populatedIffCompleted (s : session) : Prop :=
  forall st, populated s st = true <-> isCompletedOf s st = true.

(** "A status that says a stage is done comes with that stage's
    entry", at one session. *)
Definition completedImpliesPopulated (s : session) : Prop :=
  forall st, isCompletedOf s st = true -> populated s st = true.

End Policy.

Import Policy.

Arguments callGeminiAPI : simpl never.
Arguments includes : simpl never.
Arguments generateFallbackCVAnalysis : simpl never.
Arguments generateFallbackTranscription : simpl never.
Arguments generateFallbackFaceAnalysis : simpl never.
Arguments basename : simpl never.
Arguments getMimeType : simpl never.

(** *** Sample providers and payloads *)

Definition rejecting (code : Z) (msg : string) : provider :=
  fun _ => Rejected {| responseCode := Some code;
                       responseMessage := Some msg;
                       message := "Request failed with status code" |}.

Definition timingOut : provider :=
  fun _ => Rejected (newError "timeout of 120000ms exceeded").

Definition pdfOfSize (bytes : N) : fileData :=
  {| mimeType := "application/pdf"; byteLength := bytes |}.

Definition answering (text : string) : provider :=
  fun _ => Candidate (VText text).

Definition videoUpload : upload :=
  {| audioFile := None;
     videoFile := Some {| Upload.path := "uploads/video-1.mp4";
                          Upload.size := 5 * MB;
                          Upload.originalname := "interview.mp4" |};
     cvFile := Some {| Upload.path := "uploads/cv-1.pdf";
                       Upload.size := 1 * MB;
                       Upload.originalname := "cv.pdf" |};
     jobDescriptionField := Some "Senior Backend Engineer" |}.

Definition audioUpload : upload :=
  {| audioFile := Some {| Upload.path := "uploads/audio-1.mp3";
                          Upload.size := 5 * MB;
                          Upload.originalname := "interview.mp3" |};
     videoFile := None;
     cvFile := Some {| Upload.path := "uploads/cv-1.pdf";
                       Upload.size := 1 * MB;
                       Upload.originalname := "cv.pdf" |};
     jobDescriptionField := Some "Senior Backend Engineer" |}.

(** The sessions [initialize] makes of these uploads. *)
Definition videoSession : session :=
  {| sessionId := "1700000000000abc";
     audioPath := None;
     videoPath := Some "uploads/video-1.mp4";
     cvPath := "uploads/cv-1.pdf";
     jobDescription := "Senior Backend Engineer";
     mediaType := video;
     status := "initialized";
     createdAt := 1700000000000;
     completedAt := None;
     results := ∅ |}.

Definition audioSession : session :=
  {| sessionId := "1700000000000abc";
     audioPath := Some "uploads/audio-1.mp3";
     videoPath := None;
     cvPath := "uploads/cv-1.pdf";
     jobDescription := "Senior Backend Engineer";
     mediaType := audio;
     status := "initialized";
     createdAt := 1700000000000;
     completedAt := None;
     results := ∅ |}.

(** A session with the two first stages done. *)
Definition transcribedSession : session :=
  withStatus "video_transcribed"
    (withResult "transcription" (VText "Interviewer: ...")
       (withResult "cvAnalysis" (VText "Candidate Overview: ...") videoSession)).

(** A session with every stage before the final report done. *)
Definition analyzedSession : session :=
  withStatus "communication_analyzed"
    (withResult "communicationAnalysis" (VText "Clarity: ...")
       (withResult "technicalAnalysis" (VText "Competency: ...")
          transcribedSession)).

(** A disk holding a 1 MB CV and 5 MB of media. *)
Definition disk : filesystem :=
  fun p => if String.eqb p "uploads/cv-1.pdf" then Some (1 * MB)%N
           else Some (5 * MB)%N.

(** A disk on which every file has the given size. *)
Definition diskOf (bytes : N) : filesystem := fun _ => Some bytes.

Definition world (p : provider) : env :=
  {| fs := disk; api := p; now := 1700000060000 |}.

(** The body the force-fallback route sends for a step it does not
    know. *)
Definition fallbackUnavailable : failure :=
  {| error := "Fallback not available for this step";
     missing := [];
     availableSteps := ["cv_analysis"; "transcription"; "face_analysis"];
     canUseFallback := false; canRetry := false |}.

(** ** Further routes and the client side *)

Module Multer.

(** A file part of the multipart form as multer meets it: the field it
    came in, the MIME type the client declared, and the file the disk
    storage makes of it. *)
Record part := {
  fieldname : string;
  mimetype : string;
  stored : Upload.file
}.

Definition audioMimes : list string :=
  [ "audio/mpeg"; "audio/mp3"; "audio/wav"; "audio/wave";
    "audio/x-wav"; "audio/aac"; "audio/ogg"; "audio/webm";
    "audio/flac"; "audio/x-flac"; "audio/mp4"; "audio/m4a" ].

Definition videoMimes : list string :=
  [ "video/mp4"; "video/avi"; "video/mov"; "video/wmv"; "video/webm" ].

Definition docMimes : list string :=
  [ "application/pdf"; "application/msword";
    "application/vnd.openxmlformats-officedocument.wordprocessingml.document";
    "text/plain" ].

(** [list.includes(x)] *)
Definition listIncludes (l : list string) (x : string) : bool :=
  existsb (String.eqb x) l.

(** [fileFilter]: [None] for [cb(null, true)], the message of the error
    otherwise. *)
Definition fileFilter (field mime : string) : option string :=
  if String.eqb field "audio" then
    if listIncludes audioMimes mime then None
    else Some "Invalid audio format. Please upload MP3, WAV, AAC, OGG, FLAC, or M4A files."
  else if String.eqb field "video" then
    if listIncludes videoMimes mime then None
    else Some "Invalid video format. Please upload MP4, AVI, MOV, WMV, or WebM files."
  else if String.eqb field "cv" then
    if listIncludes docMimes mime then None
    else Some "Invalid CV format. Please upload PDF, DOC, DOCX, or TXT files."
  else Some "Unexpected field".

(** [limits.fileSize]: multer refuses a file of more bytes than this. *)
Definition fileSize : N := 50 * 1024 * 1024.

(** [upload.fields] with [maxCount: 1] for [audio], [video] and [cv]:
    how many files each field may still take. *)
Definition filesLeft := string -> option nat.

Definition initialFilesLeft : filesLeft :=
  fun field =>
    if String.eqb field "audio" || String.eqb field "video"
       || String.eqb field "cv"
    then Some 1 else None.

Definition taken (field : string) (left : filesLeft) : filesLeft :=
  fun other =>
    if String.eqb other field then Nat.pred <$> left other else left other.

(** [req.files[fieldname]] gets the stored file. *)
Definition place (p : part) (u : upload) : upload :=
  if String.eqb (fieldname p) "audio" then
    {| audioFile := Some (stored p); videoFile := videoFile u;
       cvFile := cvFile u; jobDescriptionField := jobDescriptionField u |}
  else if String.eqb (fieldname p) "video" then
    {| audioFile := audioFile u; videoFile := Some (stored p);
       cvFile := cvFile u; jobDescriptionField := jobDescriptionField u |}
  else if String.eqb (fieldname p) "cv" then
    {| audioFile := audioFile u; videoFile := videoFile u;
       cvFile := Some (stored p);
       jobDescriptionField := jobDescriptionField u |}
  else u.

(** The middleware over the file parts in the order they arrive: a part
    in a field that takes no (more) file, a part the filter refuses and
    a part above the size limit each end the upload with an error. *)
Fixpoint receive (left : filesLeft) (parts : list part) (u : upload)
  : string + upload :=
  match parts with
  | [] => inr u
  | p :: rest =>
      match left (fieldname p) with
      | Some (S _) =>
          match fileFilter (fieldname p) (mimetype p) with
          | Some msg => inl msg
          | None =>
              if (fileSize <? Upload.size (stored p))%N
              then inl "File too large"
              else receive (taken (fieldname p) left) rest (place p u)
          end
      | _ => inl "Unexpected field"
      end
  end.

(** [POST /api/initialize] as mounted: the middleware, then the handler;
    an error of the middleware goes to the error-handling middleware,
    which answers 500 "Internal server error". *)
Definition initializeRoute (newId : string) (now : Z) (parts : list part)
    (jobDescription : option string) (store : gmap string session)
  : gmap string session * response * list event :=
  match receive initialFilesLeft parts
          {| audioFile := None; videoFile := None; cvFile := None;
             jobDescriptionField := jobDescription |} with
  | inl _ => (store, Json 500 (Failed (fail "Internal server error")), [])
  | inr u => initialize newId now u store
  end.






End Multer.

Module Budget.

(** The longest wait the catch block can choose after a failed attempt:
    the overload schedule or the rate-limit delay, whichever is larger
    (the generic delay is below both). *)
Definition worstWait (attempt : nat) : Z :=
  Z.max (overloadWait attempt) (30000 * Z.of_nat attempt).

(** Time spent in [delay] along a trace, and the number of delays. *)
Fixpoint totalWait (t : list event) : Z :=
  match t with
  | [] => 0
  | Wait ms :: rest => ms + totalWait rest
  | _ :: rest => totalWait rest
  end.

Definition isWait (e : event) : bool :=
  match e with Wait _ => true | _ => false end.

Definition waitCount (t : list event) : nat := length (filter isWait t).

(** The worst waits of [fuel] attempts in a row, from [attempt] on. *)
Fixpoint worstTotal (attempt fuel : nat) : Z :=
  match fuel with
  | O => 0
  | S fuel' => worstWait attempt + worstTotal (S attempt) fuel'
  end.

(** The messages [callGeminiAPI] throws. *)
Definition knownError (msg : string) : Prop :=
  msg = "OVERLOADED" \/ msg = "RATE_LIMITED"
  \/ String.prefix "INVALID_REQUEST: " msg = true
  \/ String.prefix "FAILED_AFTER_RETRIES: " msg = true.

End Budget.

Import Budget.

Module Health.



End Health.

Import Health.

Module Frontend.

(** [keyof typeof analysisStates] in [HireBotApp.tsx]. *)
Inductive analysisType :=
| CvCard | MediaCard | FaceCard | TechnicalCard | CommunicationCard | FinalCard.

Definition typeName (t : analysisType) : string :=
  match t with
  | CvCard => "cv"
  | MediaCard => "media"
  | FaceCard => "face"
  | TechnicalCard => "technical"
  | CommunicationCard => "communication"
  | FinalCard => "final"
  end.

(** [stepName] of [handleRetryStep]. *)
Definition retryStepName (t : analysisType) : string :=
  match t with
  | CvCard => "cv_analysis"
  | MediaCard => "transcription"
  | FaceCard => "face_analysis"
  | _ => typeName t +:+ "_analysis"
  end.

(** [resultKey] of [handleAnalysisStep]. *)
Definition cardResultKey (t : analysisType) : string :=
  match t with
  | CvCard => "cvAnalysis"
  | MediaCard => "transcription"
  | FaceCard => "faceAnalysis"
  | FinalCard => "finalReport"
  | _ => typeName t +:+ "Analysis"
  end.

(** The endpoint each card's [onStart] posts to. *)
Definition cardEndpoint (t : analysisType) : request :=
  match t with
  | CvCard => AnalyzeCv
  | MediaCard => TranscribeMedia
  | FaceCard => FaceAnalysis
  | TechnicalCard => TechnicalAnalysis
  | CommunicationCard => CommunicationAnalysis
  | FinalCard => FinalReport
  end.

(** The step indicator: [Step], [updateStepStatus], [stepMap] and the
    progress update at the end of a successful [handleAnalysisStep]. *)
Inductive stepState := Pending | Current | Completed.

Record step := {
  id : nat;
  title : string;
  description : string;
  stepStatus : stepState
}.

(** [{ ...step, status }] *)
Definition withStepStatus (st : stepState) (x : step) : step :=
  {| id := id x; title := title x; description := description x;
     stepStatus := st |}.

Definition updateStepStatus (stepId : nat) (st : stepState)
    (steps : list step) : list step :=
  map (fun x => if (id x =? stepId)%nat then withStepStatus st x else x) steps.

Definition stepMap (t : analysisType) : nat :=
  match t with
  | CvCard => 2
  | MediaCard => 3
  | FaceCard => 4
  | TechnicalCard => 5
  | CommunicationCard => 6
  | FinalCard => 7
  end.

Definition ANALYSIS_STEPS : list step :=
  [ {| id := 1; title := "Upload"; description := "Video & CV Upload";
       stepStatus := Current |};
    {| id := 2; title := "CV Analysis"; description := "Resume Review";
       stepStatus := Pending |};
    {| id := 3; title := "Video Transcription";
       description := "Audio Extraction"; stepStatus := Pending |};
    {| id := 4; title := "Face Analysis"; description := "Visual Assessment";
       stepStatus := Pending |};
    {| id := 5; title := "Technical Review";
       description := "Skills Assessment"; stepStatus := Pending |};
    {| id := 6; title := "Communication"; description := "Speaking Style";
       stepStatus := Pending |};
    {| id := 7; title := "Final Report"; description := "Complete Analysis";
       stepStatus := Pending |} ].

Definition progress (t : analysisType) (steps : list step) : list step :=
  let currentStepNum := stepMap t in
  let steps := updateStepStatus currentStepNum Completed steps in
  if (currentStepNum <? 7)%nat then
    updateStepStatus (currentStepNum + 1) Current steps
  else steps.

End Frontend.

Module Pdf.

(** The download name of [generatePDF]:
    [title.replace(/[^a-z0-9]/gi, '_').toLowerCase()], an underscore,
    [dateGenerated.replace(/\//g, '-')] and [.pdf].  Characters are
    code units. *)
Definition isAlnum (c : ascii) : bool :=
  let n := nat_of_ascii c in
  ((48 <=? n) && (n <=? 57) || (65 <=? n) && (n <=? 90)
   || (97 <=? n) && (n <=? 122))%nat.

Fixpoint replaceNonAlnum (s : string) : string :=
  match s with
  | EmptyString => EmptyString
  | String c rest =>
      String (if isAlnum c then c else "_"%char) (replaceNonAlnum rest)
  end.

Fixpoint replaceSlashes (s : string) : string :=
  match s with
  | EmptyString => EmptyString
  | String c rest =>
      String (if Ascii.eqb c "/"%char then "-"%char else c)
        (replaceSlashes rest)
  end.

Definition fileName (title dateGenerated : string) : string :=
  toLowerCase (replaceNonAlnum title) +:+ "_"
  +:+ replaceSlashes dateGenerated +:+ ".pdf".

(** The characters of a string. *)
Fixpoint chars (s : string) : list ascii :=
  match s with
  | EmptyString => []
  | String c rest => c :: chars rest
  end.

Definition isSafeChar (c : ascii) : bool :=
  let n := nat_of_ascii c in
  ((48 <=? n) && (n <=? 57) || (97 <=? n) && (n <=? 122) || (n =? 95))%nat.

End Pdf.

(** Upload names: no dot and no separator in the stem. *)
Fixpoint plain (s : string) : bool :=
  match s with
  | EmptyString => true
  | String c rest =>
      negb (Ascii.eqb c "."%char) && negb (Ascii.eqb c "/"%char) && plain rest
  end.

(** Requests in sequence, each against what it meets; the session at the
    end and the whole trace. *)
Fixpoint run (script : list (env * request)) (s : session)
  : session * list event :=
  match script with
  | [] => (s, [])
  | (e, r) :: rest =>
      let rep := handle e r s in
      let (s', t) := run rest (after rep) in
      (s', trace rep ++ t)
  end.

(** The inputs of a session: what [initialize] stores and no route
    assigns again. *)
Definition sameInputs (s s' : session) : Prop :=
  sessionId s' = sessionId s /\ audioPath s' = audioPath s
  /\ videoPath s' = videoPath s /\ cvPath s' = cvPath s
  /\ jobDescription s' = jobDescription s /\ mediaType s' = mediaType s
  /\ createdAt s' = createdAt s.

(** The strings the routes ever assign to [session.status], for a
    session of media type [m]. *)
Definition statusValues (m : media) : list string :=
  [ "initialized"; "analyzing_cv"; "cv_analyzed"; "cv_analyzed_fallback";
    "transcribing_media";
    mediaName m +:+ "_transcribed"; mediaName m +:+ "_transcribed_fallback";
    "analyzing_face"; "face_analyzed"; "face_analyzed_fallback";
    "analyzing_technical"; "technical_analyzed";
    "analyzing_communication"; "communication_analyzed";
    "generating_final_report"; "completed"; "error" ].

Definition isStatusValue (m : media) (st : string) : bool :=
  existsb (String.eqb st) (statusValues m).

(** The keys the routes ever write in [session.results]. *)
Definition stageKeys : gset string :=
  {[ "cvAnalysis"; "transcription"; "faceAnalysis"; "technicalAnalysis";
     "communicationAnalysis"; "finalReport" ]}.

(** The gateway budget of each route. *)
Definition budget (r : request) : nat :=
  match r with
  | AnalyzeCv => 2
  | TranscribeMedia | FaceAnalysis
  | TechnicalAnalysis | CommunicationAnalysis | FinalReport => 3
  | Fallback _ | Retry _ => 0
  end.

(** A provider that is overloaded at every attempt, one that answers
    at once, and one that fails twice before answering. *)
Definition overloaded : provider :=
  rejecting 503 "The model is overloaded.".

Definition flaky (text : string) : provider :=
  fun attempt =>
    match attempt with
    | 1 => Rejected {| responseCode := Some 429%Z;
                       responseMessage := Some "Resource has been exhausted";
                       message := "Request failed with status code" |}
    | 2 => Rejected (newError "timeout of 120000ms exceeded")
    | _ => Candidate (VText text)
    end.

(** Case analysis along the branches of a handler. *)
Ltac unfold_handlers :=
  unfold handle, analyzeCv, transcribeMedia, faceAnalysis, fallback,
    technicalAnalysis, communicationAnalysis, finalReport, retry, respond.

Ltac session_fields :=
  cbn [after sent trace results status mediaType sessionId
       withStatus withResult withResults withoutResult withCompletedAt].

Ltac run_handler := unfold_handlers; repeat case_match; session_fields.

(** ** The gateway's retry loop *)

Section GatewayLoop.

Variable api : provider.
Variable fd : option fileData.
Variable retries : nat.

Lemma tryAttempt_sent attempt :
  payloadTooLarge fd = false ->
  tryAttempt api fd attempt =
    (match thrownBy (api attempt) with
     | Some e => inr e
     | None => match api attempt with
               | Candidate text => inl text
               | _ => inl VUndefined
               end
     end, [Post attempt]).
Proof.
  intros Hfd. unfold tryAttempt. rewrite Hfd.
  destruct (api attempt); reflexivity.
Qed.

(** One failed attempt that is not the last: the class picks the wait. *)
Lemma attempts_continue fuel attempt e :
  payloadTooLarge fd = false ->
  thrownBy (api attempt) = Some e ->
  classify e <> BadRequest ->
  attempt < retries ->
  attempts api fd retries (S fuel) attempt =
    let (r, ev') := attempts api fd retries fuel (S attempt) in
    (r, Post attempt :: Wait (backoff (classify e) attempt) :: ev').
Proof.
  intros Hfd He Hc Hlt.
  cbn [attempts]. rewrite (tryAttempt_sent _ Hfd), He.
  assert (Hltb : (attempt <? retries)%nat = true) by (apply Nat.ltb_lt; lia).
  assert (Hneq : (attempt =? retries)%nat = false) by (apply Nat.eqb_neq; lia).
  unfold classify, errorMessage in *. rewrite Hltb, Hneq.
  destruct (codeIs (responseCode e) 503
            || includes "overloaded" (orElse (responseMessage e) (message e)));
    [destruct (attempts api fd retries fuel (S attempt)); reflexivity |].
  destruct (codeIs (responseCode e) 429);
    [destruct (attempts api fd retries fuel (S attempt)); reflexivity |].
  destruct (codeIs (responseCode e) 400); [congruence |].
  destruct (attempts api fd retries fuel (S attempt)); reflexivity.
Qed.

(** The last attempt failing: the class picks the terminal error. *)
Lemma attempts_exhausted fuel e :
  payloadTooLarge fd = false ->
  thrownBy (api retries) = Some e ->
  attempts api fd retries (S fuel) retries =
    (Thrown (terminal (classify e) (errorMessage e)), [Post retries]).
Proof.
  intros Hfd He.
  cbn [attempts]. rewrite (tryAttempt_sent _ Hfd), He.
  rewrite Nat.ltb_irrefl, Nat.eqb_refl.
  unfold classify, errorMessage, terminal.
  destruct (codeIs (responseCode e) 503
            || includes "overloaded" (orElse (responseMessage e) (message e)));
    [reflexivity |].
  destruct (codeIs (responseCode e) 429); [reflexivity |].
  destruct (codeIs (responseCode e) 400); reflexivity.
Qed.

(** A bad request ends the loop at whatever attempt it arrives. *)
Lemma attempts_bad_request fuel attempt e :
  payloadTooLarge fd = false ->
  thrownBy (api attempt) = Some e ->
  classify e = BadRequest ->
  attempts api fd retries (S fuel) attempt =
    (Thrown ("INVALID_REQUEST: " +:+ errorMessage e), [Post attempt]).
Proof.
  intros Hfd He Hc.
  cbn [attempts]. rewrite (tryAttempt_sent _ Hfd), He.
  unfold classify, errorMessage in *.
  destruct (codeIs (responseCode e) 503
            || includes "overloaded" (orElse (responseMessage e) (message e)));
    [discriminate |].
  destruct (codeIs (responseCode e) 429); [discriminate |].
  destruct (codeIs (responseCode e) 400); [reflexivity | discriminate].
Qed.

(** Every attempt from [attempt] on fails, none but possibly the last
    as a bad request. *)
Lemma attempts_all_fail last fuel :
  forall attempt,
  payloadTooLarge fd = false ->
  attempt + fuel = retries ->
  (forall k, attempt <= k < retries ->
     exists e, thrownBy (api k) = Some e /\ classify e <> BadRequest) ->
  thrownBy (api retries) = Some last ->
  attempts api fd retries (S fuel) attempt =
    (Thrown (terminal (classify last) (errorMessage last)),
     retryTrace (fun k => backoff (classAt api k) k) (S fuel) attempt).
Proof.
  induction fuel as [| fuel IH]; intros attempt Hfd Hsum Hall Hlast.
  - assert (attempt = retries) by lia. subst attempt.
    rewrite (attempts_exhausted _ _ Hfd Hlast). reflexivity.
  - destruct (Hall attempt) as (e & He & Hce); [lia |].
    rewrite (attempts_continue _ _ _ Hfd He); [| assumption | lia].
    rewrite IH; try assumption; [| lia | intros k Hk; apply Hall; lia].
    assert (Hclass : classAt api attempt = classify e)
      by (unfold classAt; rewrite He; reflexivity).
    cbn [retryTrace]. rewrite Hclass. reflexivity.
Qed.

End GatewayLoop.

(** C5: in the retry loop the class of the error selects the wait and
    the terminal error.  When every attempt of a call fails (none
    before the last as a bad request), the call posts [retries] times;
    after each failed attempt but the last it waits that attempt's
    delay by class, as [backoff] lists them: the escalating schedule
    30 s, 120 s, 300 s by attempt for an overload, 30 s x attempt for a
    rate limit, 5 s x attempt for any other failure; and the class of
    the last failure gives the error thrown: OVERLOADED, RATE_LIMITED
    or FAILED_AFTER_RETRIES. *)
Theorem C5_class_selects_backoff_and_terminal
    (api : provider) (fd : option fileData) (retries : nat) (last : jsError) :
  payloadTooLarge fd = false ->
  1 <= retries ->
  (forall k, 1 <= k < retries ->
     exists e, thrownBy (api k) = Some e /\ classify e <> BadRequest) ->
  thrownBy (api retries) = Some last ->
  callGeminiAPI api fd retries =
    (Thrown (terminal (classify last) (errorMessage last)),
     Invoke retries :: retryTrace (fun k => backoff (classAt api k) k) retries 1).
Proof.
  intros Hfd Hpos Hall Hlast.
  unfold callGeminiAPI.
  destruct retries as [| fuel]; [lia |].
  rewrite (attempts_all_fail api fd (S fuel) last fuel 1); auto with lia.
Qed.

(** Three providers that fail every attempt: overloaded (budget 4, so
    that the whole schedule shows), rate limited and timing out
    (budget 3). *)
Lemma C5_witness :
  callGeminiAPI (rejecting 503 "The model is overloaded.") None 4 =
    (Thrown "OVERLOADED",
     [Invoke 4; Post 1; Wait 30000; Post 2; Wait 120000; Post 3;
      Wait 300000; Post 4])
  /\ callGeminiAPI (rejecting 429 "Resource has been exhausted") None 3 =
    (Thrown "RATE_LIMITED",
     [Invoke 3; Post 1; Wait 30000; Post 2; Wait 60000; Post 3])
  /\ callGeminiAPI timingOut None 3 =
    (Thrown "FAILED_AFTER_RETRIES: timeout of 120000ms exceeded",
     [Invoke 3; Post 1; Wait 5000; Post 2; Wait 10000; Post 3]).
Proof.
  split; [| split].
  - apply (C5_class_selects_backoff_and_terminal
             (rejecting 503 "The model is overloaded.") None 4
             {| responseCode := Some 503%Z;
                responseMessage := Some "The model is overloaded.";
                message := "Request failed with status code" |});
      [reflexivity | lia | | reflexivity].
    intros k _. eexists. split; [reflexivity | discriminate].
  - apply (C5_class_selects_backoff_and_terminal
             (rejecting 429 "Resource has been exhausted") None 3
             {| responseCode := Some 429%Z;
                responseMessage := Some "Resource has been exhausted";
                message := "Request failed with status code" |});
      [reflexivity | lia | | reflexivity].
    intros k _. eexists. split; [reflexivity | discriminate].
  - apply (C5_class_selects_backoff_and_terminal timingOut None 3
             (newError "timeout of 120000ms exceeded"));
      [reflexivity | lia | | reflexivity].
    intros k _. eexists. split; [reflexivity | discriminate].
Defined.

(** What the 400 branch does where it is reached: a rejection with
    error code 400 whose message does not contain "overloaded", at the
    first attempt, ends the call at once with INVALID_REQUEST: one
    post, no wait, whatever the attempt budget. *)
Lemma first_bad_request_not_retried
    (api : provider) (fd : option fileData) (retries : nat) (e : jsError) :
  payloadTooLarge fd = false ->
  1 <= retries ->
  api 1 = Rejected e ->
  responseCode e = Some 400%Z ->
  includes "overloaded" (errorMessage e) = false ->
  callGeminiAPI api fd retries =
    (Thrown ("INVALID_REQUEST: " +:+ errorMessage e), [Invoke retries; Post 1]).
Proof.
  intros Hfd Hpos Hapi Hcode Hmsg.
  unfold callGeminiAPI.
  destruct retries as [| fuel]; [lia |].
  rewrite (attempts_bad_request api fd (S fuel) fuel 1 e); auto.
  - rewrite Hapi. reflexivity.
  - unfold classify. rewrite Hcode, Hmsg. reflexivity.
Qed.

(** C6: the branch for error code 400 is meant to end the call without
    a retry, but the overload test before it reads the message first.
    A provider that rejects every post with code 400 and a message
    that mentions "overloaded" is posted to three times under a budget
    of 3, with waits of 30 s and 120 s, and the call ends as
    OVERLOADED, not INVALID_REQUEST; the same rejection with another
    message ends after one post. *)
Theorem C6_bad_request_mentioning_overload_is_retried :
  let api := rejecting 400 "Request rejected: the model is overloaded" in
  (exists e, api 1 = Rejected e /\ responseCode e = Some 400%Z)
  /\ callGeminiAPI api None 3 =
       (Thrown "OVERLOADED",
        [Invoke 3; Post 1; Wait 30000; Post 2; Wait 120000; Post 3])
  /\ callGeminiAPI (rejecting 400 "Invalid JSON payload received.") None 3 =
       (Thrown "INVALID_REQUEST: Invalid JSON payload received.",
        [Invoke 3; Post 1]).
Proof.
  split; [| split; reflexivity].
  eexists. split; reflexivity.
Qed.

(** For any oversized payload and budget: no post at all, a wait after
    every attempt but the last, FAILED_AFTER_RETRIES at the end. *)
Lemma oversized_attempts (api : provider) (fd : option fileData)
    (retries fuel : nat) :
  forall attempt,
  payloadTooLarge fd = true ->
  attempt + fuel = retries ->
  attempts api fd retries (S fuel) attempt =
    (Thrown "FAILED_AFTER_RETRIES: File too large for processing. Please use a smaller file (< 20MB).",
     map (fun k => Wait (5000 * Z.of_nat k)) (seq attempt fuel)).
Proof.
  induction fuel as [| fuel IH]; intros attempt Hfd Hsum.
  - assert (attempt = retries) by lia. subst attempt.
    cbn [attempts]. unfold tryAttempt. rewrite Hfd. cbn.
    rewrite Nat.eqb_refl. reflexivity.
  - specialize (IH (S attempt) Hfd ltac:(lia)).
    remember (S fuel) as fuel' eqn:Hfuel.
    cbn [attempts]. unfold tryAttempt. rewrite Hfd, IH. cbn.
    assert (Hneq : (attempt =? retries)%nat = false) by (apply Nat.eqb_neq; lia).
    rewrite Hneq, Hfuel. reflexivity.
Qed.

Lemma oversized_call (api : provider) (fd : option fileData) (retries : nat) :
  payloadTooLarge fd = true ->
  1 <= retries ->
  callGeminiAPI api fd retries =
    (Thrown "FAILED_AFTER_RETRIES: File too large for processing. Please use a smaller file (< 20MB).",
     Invoke retries
       :: map (fun k => Wait (5000 * Z.of_nat k)) (seq 1 (retries - 1))).
Proof.
  intros Hfd Hpos. unfold callGeminiAPI.
  destruct retries as [| fuel]; [lia |].
  rewrite (oversized_attempts api fd (S fuel) fuel 1 Hfd); [| lia].
  replace (S fuel - 1) with fuel by lia. reflexivity.
Qed.

(** C2: the size check throws inside the [try] of the retry loop, so
    the loop's own [catch] takes the error for a generic failure.  A
    21 MB CV (the upload limit is 50 MB) reaches the gateway from the
    CV stage with a budget of 2: no post is made, but the call goes
    through both attempts, waits 5 s in between and ends as
    FAILED_AFTER_RETRIES; the stage then reports a failed analysis. *)
Theorem C2_oversized_payload_goes_through_retries (api : provider) :
  callGeminiAPI api (Some (pdfOfSize (21 * MB))) 2 =
    (Thrown "FAILED_AFTER_RETRIES: File too large for processing. Please use a smaller file (< 20MB).",
     [Invoke 2; Wait 5000])
  /\ trace (analyzeCv (diskOf (21 * MB)) api videoSession)
     = [Invoke 2; Wait 5000]
  /\ status (after (analyzeCv (diskOf (21 * MB)) api videoSession)) = "error".
Proof.
  assert (Hcall : forall mime,
            callGeminiAPI api
              (Some {| mimeType := mime; byteLength := 21 * MB |}) 2 =
            (Thrown "FAILED_AFTER_RETRIES: File too large for processing. Please use a smaller file (< 20MB).",
             [Invoke 2; Wait 5000]))
    by (intros mime; apply oversized_call; [reflexivity | lia]).
  split; [apply Hcall |].
  unfold analyzeCv, fileToBase64, diskOf. rewrite Hcall.
  split; reflexivity.
Qed.

(** ** Stage handlers *)

Lemma sample_created : created videoSession /\ created audioSession.
Proof.
  split.
  - exists "1700000000000abc", 1700000000000%Z, videoUpload, ∅.
    cbn. split; [reflexivity | apply lookup_insert_eq].
  - exists "1700000000000abc", 1700000000000%Z, audioUpload, ∅.
    cbn. split; [reflexivity | apply lookup_insert_eq].
Qed.

(** An unknown session id is answered 404 and changes nothing. *)
Lemma serve_unknown_session (e : env) (store : gmap string session)
    (id : string) (r : request) :
  store !! id = None ->
  serve e store id r = (store, Json 404 (Failed (fail "Session not found")), []).
Proof. intros Hnone. unfold serve. rewrite Hnone. reflexivity. Qed.

(** A known one is handled on the stored session, which is updated in
    place. *)
Lemma serve_known_session (e : env) (store : gmap string session)
    (id : string) (r : request) (s : session) :
  store !! id = Some s ->
  serve e store id r =
    (<[id := after (handle e r s)]> store,
     sent (handle e r s), trace (handle e r s)).
Proof. intros Hsome. unfold serve. rewrite Hsome. reflexivity. Qed.

(** What a thrown gateway error leaves behind in the three later
    stages: the in-progress status and the same results. *)
Lemma technicalAnalysis_thrown api s msg ev :
  truthyAt (results s) "transcription" = true ->
  truthyAt (results s) "cvAnalysis" = true ->
  callGeminiAPI api None 3 = (Thrown msg, ev) ->
  technicalAnalysis api s =
    respond (withStatus "analyzing_technical" s)
      (Json 500 (Failed (fail "Failed to perform technical analysis"))) ev.
Proof.
  intros Ht Hc Hcall. unfold technicalAnalysis.
  rewrite Ht, Hc, Hcall. reflexivity.
Qed.

Lemma communicationAnalysis_thrown api s msg ev :
  truthyAt (results s) "transcription" = true ->
  callGeminiAPI api None 3 = (Thrown msg, ev) ->
  communicationAnalysis api s =
    respond (withStatus "analyzing_communication" s)
      (Json 500 (Failed (fail "Failed to perform communication analysis"))) ev.
Proof.
  intros Ht Hcall. unfold communicationAnalysis.
  rewrite Ht, Hcall. reflexivity.
Qed.

Lemma finalReport_thrown api now s msg ev :
  missingAnalyses s = [] ->
  callGeminiAPI api None 3 = (Thrown msg, ev) ->
  finalReport api now s =
    respond (withStatus "generating_final_report" s)
      (Json 500 (Failed (fail "Failed to generate final report"))) ev.
Proof.
  intros Hm Hcall. unfold finalReport.
  rewrite Hm, Hcall. reflexivity.
Qed.

(** The CV stage, for comparison: a thrown error that carries no
    overload signal sets the status to [error]. *)
Lemma analyzeCv_thrown fs api s bytes msg ev :
  fileToBase64 fs (cvPath s) = Some bytes ->
  callGeminiAPI api
    (Some {| mimeType := getMimeType (cvPath s); byteLength := bytes |}) 2
    = (Thrown msg, ev) ->
  overloadSignal msg = false ->
  analyzeCv fs api s =
    respond (withStatus "error" (withStatus "analyzing_cv" s))
      (Json 500 (Failed (failFallback "Failed to analyze CV"))) ev.
Proof.
  intros Hread Hcall Hsig. unfold analyzeCv.
  cbn [cvPath withStatus]. rewrite Hread, Hcall, Hsig. reflexivity.
Qed.

(** C1: on a bad request from the provider the technical analysis, the
    communication analysis and the final report answer 500 and leave
    the status at their in-progress value, not at [error]; the CV stage
    on the same provider does set [error].  No stage writes a result. *)
Theorem C1_later_stages_keep_in_progress_status :
  let p := rejecting 400 "Invalid JSON payload received." in
  let s := analyzedSession in
  (status (after (technicalAnalysis p s)) = "analyzing_technical"
   /\ sent (technicalAnalysis p s) =
        Json 500 (Failed (fail "Failed to perform technical analysis"))
   /\ results (after (technicalAnalysis p s)) = results s)
  /\ (status (after (communicationAnalysis p s)) = "analyzing_communication"
      /\ sent (communicationAnalysis p s) =
           Json 500 (Failed (fail "Failed to perform communication analysis"))
      /\ results (after (communicationAnalysis p s)) = results s)
  /\ (status (after (finalReport p 0 s)) = "generating_final_report"
      /\ sent (finalReport p 0 s) =
           Json 500 (Failed (fail "Failed to generate final report"))
      /\ results (after (finalReport p 0 s)) = results s)
  /\ status (after (analyzeCv disk p s)) = "error".
Proof.
  cbv zeta.
  assert (Hcall : callGeminiAPI (rejecting 400 "Invalid JSON payload received.")
                    None 3 =
                  (Thrown "INVALID_REQUEST: Invalid JSON payload received.",
                   [Invoke 3; Post 1])) by reflexivity.
  rewrite (technicalAnalysis_thrown _ analyzedSession _ _ eq_refl eq_refl Hcall).
  rewrite (communicationAnalysis_thrown _ analyzedSession _ _ eq_refl Hcall).
  rewrite (finalReport_thrown _ 0%Z analyzedSession _ _ eq_refl Hcall).
  repeat split; reflexivity.
Qed.

(** C8: while [results.cvAnalysis] and [results.transcription] are not
    both there, the technical analysis answers 400 "Previous analysis
    steps not completed", calls nothing and leaves the session (status
    and results) as it was. *)
Theorem C8_technical_requires_cv_and_transcription
    (api : provider) (s : session) :
  ~ (is_Some (results s !! "cvAnalysis")
     /\ is_Some (results s !! "transcription")) ->
  technicalAnalysis api s =
    respond s
      (Json 400 (Failed (fail "Previous analysis steps not completed"))) [].
Proof.
  intros Hmiss. unfold technicalAnalysis, truthyAt.
  destruct (results s !! "transcription") as [t |] eqn:Ht;
    destruct (results s !! "cvAnalysis") as [c |] eqn:Hc.
  - exfalso. apply Hmiss. split; eexists; reflexivity.
  - rewrite orb_true_r. reflexivity.
  - reflexivity.
  - reflexivity.
Qed.

(** A fresh session has neither result. *)
Lemma C8_witness :
  technicalAnalysis (answering "Competency: ...") videoSession =
    respond videoSession
      (Json 400 (Failed (fail "Previous analysis steps not completed"))) [].
Proof.
  apply (C8_technical_requires_cv_and_transcription
           (answering "Competency: ...") videoSession).
  intros [[v Hv] _]. cbn in Hv. rewrite lookup_empty in Hv. discriminate.
Defined.

(** C10: the force-fallback route knows the steps [cv_analysis],
    [transcription] and [face_analysis] only.  Any other step name is
    answered 400 with the list of these three, the session untouched;
    none of the three is answered that way. *)
Theorem C10_fallback_steps (step : string) (s : session) :
  (step ∉ fallbackSteps ->
     fallback step s = respond s (Json 400 (Failed fallbackUnavailable)) [])
  /\ (step ∈ fallbackSteps ->
        sent (fallback step s) <> Json 400 (Failed fallbackUnavailable)).
Proof.
  unfold fallbackSteps, fallback. split.
  - intros Hnot.
    destruct (String.eqb_spec step "cv_analysis") as [-> | _];
      [exfalso; apply Hnot; set_solver |].
    destruct (String.eqb_spec step "transcription") as [-> | _];
      [exfalso; apply Hnot; set_solver |].
    destruct (String.eqb_spec step "face_analysis") as [-> | _];
      [exfalso; apply Hnot; set_solver |].
    reflexivity.
  - intros Hin.
    apply list_elem_of_In in Hin. cbn in Hin.
    destruct Hin as [<- | [<- | [<- | []]]];
      cbn -[basename generateFallbackCVAnalysis generateFallbackTranscription
            generateFallbackFaceAnalysis];
      repeat case_match; cbn; discriminate.
Qed.

(** Two of the later stages, asked for in fallback mode. *)
Lemma C10_witness :
  fallback "technical_analysis" analyzedSession =
    respond analyzedSession (Json 400 (Failed fallbackUnavailable)) []
  /\ fallback "final_report" analyzedSession =
    respond analyzedSession (Json 400 (Failed fallbackUnavailable)) [].
Proof.
  split.
  - apply (C10_fallback_steps "technical_analysis" analyzedSession).
    unfold fallbackSteps. intros Hin.
    apply list_elem_of_In in Hin. cbn in Hin. intuition discriminate.
  - apply (C10_fallback_steps "final_report" analyzedSession).
    unfold fallbackSteps. intros Hin.
    apply list_elem_of_In in Hin. cbn in Hin. intuition discriminate.
Defined.

(** C9: a video above the 10 MB cap is turned away before the gateway
    is touched, at session creation (no session is stored) and at the
    transcription stage (status [error], nothing written): the trace of
    either request has no gateway invocation and no post. *)
Theorem C9_oversized_video_rejected_before_gateway
    (newId : string) (now : Z) (u : upload) (store : gmap string session)
    (f : Upload.file)
    (files : filesystem) (p : provider) (s : session) (path : string)
    (bytes : N) :
  videoFile u = Some f ->
  (10 * MB < Upload.size f)%N ->
  mediaType s = video ->
  videoPath s = Some path ->
  path <> "" ->
  files path = Some bytes ->
  (10 * MB < bytes)%N ->
  (let '(store', resp, tr) := initialize newId now u store in
   store' = store
   /\ (exists b, resp = Json 400 (Failed b))
   /\ invocations tr = 0 /\ posts tr = 0)
  /\ (let rep := transcribeMedia files p s in
      sent rep = Json 400 (Failed (fail "video file too large for processing"))
      /\ invocations (trace rep) = 0 /\ posts (trace rep) = 0
      /\ status (after rep) = "error"
      /\ results (after rep) = results s).
Proof.
  intros Hvideo Hbig Hmedia Hpath Hne Hstat Hbytes. split.
  - unfold initialize, videoTooLarge. rewrite Hvideo.
    apply N.ltb_lt in Hbig. rewrite Hbig.
    destruct (cvFile u); [| by eauto].
    destruct (_ || _); by eauto.
  - unfold transcribeMedia. cbn [videoPath audioPath mediaType withStatus].
    rewrite Hpath, Hmedia. unfold orPath.
    apply String.eqb_neq in Hne. rewrite Hne, Hstat.
    cbn [maxSize]. apply N.ltb_lt in Hbytes. rewrite Hbytes, Hne.
    repeat split; reflexivity.
Qed.

(** An 11 MB video, at creation and on disk at transcription time. *)
Lemma C9_witness :
  (let '(store', resp, tr) :=
     initialize "1700000000000abc" 1700000000000
       {| audioFile := None;
          videoFile := Some {| Upload.path := "uploads/video-2.mp4";
                               Upload.size := 11 * MB;
                               Upload.originalname := "long.mp4" |};
          cvFile := cvFile videoUpload;
          jobDescriptionField := Some "Senior Backend Engineer" |} ∅ in
   store' = ∅
   /\ (exists b, resp = Json 400 (Failed b))
   /\ invocations tr = 0 /\ posts tr = 0)
  /\ (let rep := transcribeMedia (diskOf (11 * MB)) (answering "...")
                   videoSession in
      sent rep = Json 400 (Failed (fail "video file too large for processing"))
      /\ invocations (trace rep) = 0 /\ posts (trace rep) = 0
      /\ status (after rep) = "error"
      /\ results (after rep) = results videoSession).
Proof.
  apply (C9_oversized_video_rejected_before_gateway
           "1700000000000abc" 1700000000000
           {| audioFile := None;
              videoFile := Some {| Upload.path := "uploads/video-2.mp4";
                                   Upload.size := 11 * MB;
                                   Upload.originalname := "long.mp4" |};
              cvFile := cvFile videoUpload;
              jobDescriptionField := Some "Senior Backend Engineer" |} ∅
           {| Upload.path := "uploads/video-2.mp4";
              Upload.size := 11 * MB;
              Upload.originalname := "long.mp4" |}
           (diskOf (11 * MB)) (answering "...") videoSession
           "uploads/video-1.mp4" (11 * MB));
    [reflexivity | reflexivity | reflexivity | reflexivity | discriminate
    | reflexivity | reflexivity].
Defined.

(** ** Frame and write lemmas for the stage operations *)

(** The retry route on a stage's step name, in one equation. *)
Lemma retry_stage (st : stage) (s : session) :
  retry (stepName st) s =
    respond
      (withoutResult (resultKey st) (withStatus (predecessorCompleted st s) s))
      (Redirect 307 (primary st) (sessionId s)) [].
Proof. destruct st; reflexivity. Qed.



Lemma followRedirect_redirect (e : env) (s : session) (code : Z)
    (target : request) (id : string) :
  followRedirect e (respond s (Redirect code target id) []) =
    handle e target s.
Proof.
  unfold followRedirect, respond. cbn [sent after trace].
  destruct (handle e target s). reflexivity.
Qed.




(** ** Invariants of the session state machine *)

Lemma created_initial (s : session) :
  created s ->
  status s = "initialized" /\ results s = ∅
  /\ (mediaType s = audio -> videoPath s = None).
Proof.
  intros (newId & now & u & store & Hinit).
  unfold initialize in Hinit.
  repeat case_match; simplify_eq; destruct Hinit as [Hresp Hlook];
    try discriminate.
  all: rewrite lookup_insert_eq in Hlook; injection Hlook as <-.
  all: cbn [status results mediaType videoPath].
  all: split; [reflexivity |]; split; [reflexivity |].
  all: destruct (videoFile u); cbn in *; intros Hm; try discriminate.
  all: reflexivity.
Qed.

Lemma handle_mediaType (e : env) (r : request) (s : session) :
  mediaType (after (handle e r s)) = mediaType s.
Proof. destruct r; run_handler; congruence. Qed.

(** In an audio session no request brings a face analysis about. *)
Lemma handle_audio_no_face (e : env) (r : request) (s : session) :
  mediaType s = audio ->
  results s !! "faceAnalysis" = None ->
  results (after (handle e r s)) !! "faceAnalysis" = None.
Proof.
  intros Hm Hnone. destruct r; run_handler; try congruence;
    rewrite ?lookup_insert_ne by discriminate;
    rewrite ?lookup_delete_ne by discriminate;
    rewrite ?lookup_delete_eq; congruence.
Qed.

Lemma reachable_audio_no_face (s0 s : session) :
  mediaType s0 = audio ->
  results s0 !! "faceAnalysis" = None ->
  reachable anyRequest s0 s ->
  mediaType s = audio /\ results s !! "faceAnalysis" = None.
Proof.
  intros Hm Hnone Hreach.
  induction Hreach as [| e r s Hreach [IHm IHnone] _]; [by split |].
  split.
  - rewrite handle_mediaType. exact IHm.
  - apply handle_audio_no_face; assumption.
Qed.

(** C7: in a session created without a video, at every state any
    sequence of requests can bring it to, [results.faceAnalysis] is
    absent, and the face analysis is turned away with a 400 whichever
    way it is asked for: at its own endpoint, through the force-fallback
    route, or through the retry route and its redirect; no gateway
    event happens and no face result is written. *)
Theorem C7_audio_sessions_never_analyze_face (s0 s : session) :
  created s0 ->
  mediaType s0 = audio ->
  reachable anyRequest s0 s ->
  results s !! "faceAnalysis" = None
  /\ (forall files p,
        faceAnalysis files p s =
          respond s
            (Json 400 (Failed (fail "Face analysis only available for video files")))
            [])
  /\ fallback "face_analysis" s =
       respond s (Json 400 (Failed (fail "Face analysis not available"))) []
  /\ (forall e,
        let rep := retryStage e "face_analysis" s in
        sent rep =
          Json 400 (Failed (fail "Face analysis only available for video files"))
        /\ trace rep = []
        /\ results (after rep) !! "faceAnalysis" = None).
Proof.
  intros Hcreated Hm Hreach.
  destruct (created_initial s0 Hcreated) as (_ & Hres & _).
  destruct (reachable_audio_no_face s0 s Hm) as [Hms Hnone];
    [by rewrite Hres, lookup_empty | assumption |].
  split; [assumption |].
  split; [| split].
  - intros files p. unfold faceAnalysis. rewrite Hms. reflexivity.
  - unfold fallback. cbn [String.eqb Ascii.eqb Bool.eqb]. rewrite Hms.
    reflexivity.
  - intros e. cbv zeta. unfold retryStage.
    rewrite (retry_stage Face), followRedirect_redirect.
    cbn [handle primary]. unfold faceAnalysis.
    cbn [mediaType withoutResult withResults withStatus]. rewrite Hms.
    cbn [sent trace after respond results resultKey].
    repeat split. apply lookup_delete_eq.
Qed.

(** An audio session after its transcription. *)
Lemma C7_witness :
  let s := after (handle (world (answering "Interviewer: ..."))
                    TranscribeMedia audioSession) in
  results s !! "faceAnalysis" = None
  /\ (forall files p,
        faceAnalysis files p s =
          respond s
            (Json 400 (Failed (fail "Face analysis only available for video files")))
            [])
  /\ fallback "face_analysis" s =
       respond s (Json 400 (Failed (fail "Face analysis not available"))) []
  /\ (forall e,
        let rep := retryStage e "face_analysis" s in
        sent rep =
          Json 400 (Failed (fail "Face analysis only available for video files"))
        /\ trace rep = []
        /\ results (after rep) !! "faceAnalysis" = None).
Proof.
  apply (C7_audio_sessions_never_analyze_face audioSession).
  - exists "1700000000000abc", 1700000000000%Z, audioUpload, ∅.
    cbn. split; [reflexivity | apply lookup_insert_eq].
  - reflexivity.
  - apply reach_step; [apply reach_start | exact I].
Defined.

Lemma handle_completed_populated (e : env) (r : request) (s : session) :
  notRetry r ->
  completedImpliesPopulated s ->
  completedImpliesPopulated (after (handle e r s)).
Proof.
  intros Hallowed Hinv.
  destruct r; try contradiction; run_handler; try assumption;
    intros st Hst;
    apply bool_decide_eq_true in Hst; apply bool_decide_eq_true;
    cbn [status mediaType results resultKey withStatus withResult
         withResults withCompletedAt] in *;
    apply list_elem_of_In in Hst;
    destruct (mediaType s), st; cbn in Hst;
    try solve [exfalso; intuition discriminate];
    cbn [resultKey]; rewrite lookup_insert_eq; eauto.
Qed.

Lemma reachable_completed_populated (s0 s : session) :
  completedImpliesPopulated s0 ->
  reachable notRetry s0 s ->
  completedImpliesPopulated s.
Proof.
  intros Hstart Hreach.
  induction Hreach as [| e r s Hreach IH Hallowed]; [assumption |].
  apply handle_completed_populated; assumption.
Qed.

(** C3, as the code has it: from a created session, through the stage
    operations and the force-fallback route, whenever the status is a
    stage's completed value (AI-produced or fallback) that stage's entry
    in [results] is there.  (The status names the latest stage only, so
    entries of earlier stages outlive their status; and the retry
    route's reset writes a completed status without looking at
    [results].) *)
Theorem C3_completed_status_implies_result (s0 s : session) (st : stage) :
  created s0 ->
  reachable notRetry s0 s ->
  isCompletedOf s st = true ->
  populated s st = true.
Proof.
  intros Hcreated Hreach.
  apply (reachable_completed_populated s0 s); [| assumption].
  destruct (created_initial s0 Hcreated) as (Hstatus & _ & _).
  intros st' Hst'. exfalso.
  apply bool_decide_eq_true in Hst'. rewrite Hstatus in Hst'.
  apply list_elem_of_In in Hst'.
  destruct (mediaType s0), st'; cbn in Hst'; intuition discriminate.
Qed.

(** A video session after its CV analysis. *)
Lemma C3_witness :
  populated
    (after (handle (world (answering "Candidate Overview: ..."))
              AnalyzeCv videoSession))
    CvAnalysis = true.
Proof.
  apply (C3_completed_status_implies_result videoSession).
  - exists "1700000000000abc", 1700000000000%Z, videoUpload, ∅.
    cbn. split; [reflexivity | apply lookup_insert_eq].
  - apply reach_step; [apply reach_start | exact I].
  - vm_compute. reflexivity.
Defined.

(** C3 as stated fails: after the CV analysis and the transcription of
    a created video session the status is [video_transcribed], which is
    no completed value of the CV stage, while [results.cvAnalysis] is
    populated. *)
Lemma C3_counterexample :
  ~ (forall s0 s, created s0 -> reachable anyRequest s0 s ->
       populatedIffCompleted s).
Proof.
  intros Hclaim.
  pose (w := world (answering "...")).
  pose (s1 := after (handle w AnalyzeCv videoSession)).
  pose (s2 := after (handle w TranscribeMedia s1)).
  assert (Hreach : reachable anyRequest videoSession s2).
  { apply reach_step; [apply reach_step; [apply reach_start |] |]; exact I. }
  destruct (Hclaim videoSession s2 (proj1 sample_created) Hreach CvAnalysis)
    as [Hforward _].
  assert (Hpop : populated s2 CvAnalysis = true) by (vm_compute; reflexivity).
  specialize (Hforward Hpop).
  assert (Hnot : isCompletedOf s2 CvAnalysis = false)
    by (vm_compute; reflexivity).
  congruence.
Qed.

(** The retry route's reset is what the restriction of C3 keeps out:
    on a fresh session it sets [cv_analyzed] with no CV analysis
    stored. *)
Lemma retry_sets_completed_status_without_result :
  let s := after (retry "transcription" videoSession) in
  isCompletedOf s CvAnalysis = true /\ populated s CvAnalysis = false.
Proof. split; vm_compute; reflexivity. Qed.

(** ** Bounds on one gateway call *)

Section GatewayBounds.

Variable api : provider.
Variable fd : option fileData.
Variable retries : nat.

Lemma tryAttempt_cases (attempt : nat) :
  exists r ev, tryAttempt api fd attempt = (r, ev)
    /\ (ev = [] \/ ev = [Post attempt])
    /\ (forall v, r = inl v ->
           api attempt = Candidate v /\ payloadTooLarge fd = false).
Proof.
  unfold tryAttempt.
  destruct (payloadTooLarge fd).
  - do 2 eexists. split; [reflexivity |]. split; [by left | discriminate].
  - destruct (api attempt); do 2 eexists;
      (split; [reflexivity |]); (split; [by right |]);
      intros v' Hv; by simplify_eq.
Qed.

Lemma worstWait_bounds (attempt : nat) :
  (0 <= overloadWait attempt <= worstWait attempt
   /\ 0 <= 30000 * Z.of_nat attempt <= worstWait attempt
   /\ 0 <= 5000 * Z.of_nat attempt <= worstWait attempt)%Z.
Proof.
  unfold worstWait, overloadWait.
  destruct attempt as [| [| [| n]]]; lia.
Qed.

Lemma prefix_append (p s : string) : String.prefix p (p +:+ s) = true.
Proof.
  induction p as [| c p IH].
  - by destruct s.
  - change (match ascii_dec c c with
            | left _ => String.prefix p (p +:+ s)
            | right _ => false
            end = true).
    destruct (ascii_dec c c); [exact IH | congruence].
Qed.

(** One turn of the loop: it ends, or it waits once and goes on. *)
Lemma attempts_step (fuel attempt : nat) :
  (exists r ev,
     attempts api fd retries (S fuel) attempt = (r, ev)
     /\ (ev = [] \/ ev = [Post attempt])
     /\ (forall msg, r = Thrown msg -> knownError msg)
     /\ (forall v, r = Returned v ->
            api attempt = Candidate v /\ payloadTooLarge fd = false))
  \/ (exists ev w,
        (ev = [] \/ ev = [Post attempt])
        /\ attempt <> retries
        /\ (0 <= w <= worstWait attempt)%Z
        /\ attempts api fd retries (S fuel) attempt =
             (fst (attempts api fd retries fuel (S attempt)),
              ev ++ Wait w :: snd (attempts api fd retries fuel (S attempt)))).
Proof.
  destruct (tryAttempt_cases attempt) as (r & ev & Htry & Hev & Hret).
  destruct (worstWait_bounds attempt) as (Wo & Wr & Wg).
  cbn [attempts]. rewrite Htry.
  destruct r as [v | e].
  - left. exists (Returned v), ev. split; [reflexivity |].
    split; [assumption |]. split; [discriminate |].
    intros v' Hv. injection Hv as <-. by apply Hret.
  - destruct (codeIs (responseCode e) 503 || includes "overloaded" _).
    { destruct (attempt <? retries)%nat eqn:Hlt.
      - right. exists ev, (overloadWait attempt).
        apply Nat.ltb_lt in Hlt.
        repeat split; try assumption; try lia.
        by destruct (attempts api fd retries fuel (S attempt)).
      - left. do 2 eexists. split; [reflexivity |]. split; [assumption |].
        split; [| discriminate].
        intros msg Hmsg. injection Hmsg as <-. by left. }
    destruct (codeIs (responseCode e) 429).
    { destruct (attempt <? retries)%nat eqn:Hlt.
      - right. exists ev, (30000 * Z.of_nat attempt)%Z.
        apply Nat.ltb_lt in Hlt.
        repeat split; try assumption; try lia.
        by destruct (attempts api fd retries fuel (S attempt)).
      - left. do 2 eexists. split; [reflexivity |]. split; [assumption |].
        split; [| discriminate].
        intros msg Hmsg. injection Hmsg as <-. right. by left. }
    destruct (codeIs (responseCode e) 400).
    { left. do 2 eexists. split; [reflexivity |]. split; [assumption |].
      split; [| discriminate].
      intros msg Hmsg. injection Hmsg as <-. right. right. left.
      apply prefix_append. }
    destruct (attempt =? retries)%nat eqn:Heq.
    + left. do 2 eexists. split; [reflexivity |]. split; [assumption |].
      split; [| discriminate].
      intros msg Hmsg. injection Hmsg as <-. right. right. right.
      apply prefix_append.
    + right. exists ev, (5000 * Z.of_nat attempt)%Z.
      apply Nat.eqb_neq in Heq.
      repeat split; try assumption; try lia.
      by destruct (attempts api fd retries fuel (S attempt)).
Qed.

Lemma posts_app (a b : list event) : posts (a ++ b) = posts a + posts b.
Proof. unfold posts. by rewrite filter_app, length_app. Qed.

Lemma waitCount_app (a b : list event) :
  waitCount (a ++ b) = waitCount a + waitCount b.
Proof. unfold waitCount. by rewrite filter_app, length_app. Qed.

Lemma invocations_app (a b : list event) :
  invocations (a ++ b) = invocations a + invocations b.
Proof. unfold invocations. by rewrite filter_app, length_app. Qed.

Lemma totalWait_app (a b : list event) :
  totalWait (a ++ b) = (totalWait a + totalWait b)%Z.
Proof.
  induction a as [| [] a IH]; cbn [totalWait app]; rewrite ?IH; lia.
Qed.

Lemma attempt_trace_cost (ev : list event) (attempt : nat) :
  ev = [] \/ ev = [Post attempt] ->
  posts ev <= 1 /\ waitCount ev = 0 /\ invocations ev = 0
  /\ totalWait ev = 0%Z.
Proof.
  intros [-> | ->]; (split; [vm_compute; lia |]); repeat split.
Qed.

Lemma wait_cost (w : Z) :
  posts [Wait w] = 0 /\ waitCount [Wait w] = 1 /\ invocations [Wait w] = 0
  /\ totalWait [Wait w] = w.
Proof. repeat split. cbn. lia. Qed.

Lemma worstTotal_nonneg (fuel : nat) :
  forall attempt, (0 <= worstTotal attempt fuel)%Z.
Proof.
  induction fuel as [| n IHn]; intros a; cbn [worstTotal]; [lia |].
  specialize (IHn (S a)). pose proof (worstWait_bounds a). lia.
Qed.

(** What [fuel + 1] turns from [attempt] on can cost, and where their
    result comes from. *)
Lemma attempts_bounds (fuel : nat) :
  forall attempt,
  attempt + fuel = retries ->
  let rt := attempts api fd retries (S fuel) attempt in
  posts (snd rt) <= S fuel
  /\ waitCount (snd rt) <= fuel
  /\ invocations (snd rt) = 0
  /\ (0 <= totalWait (snd rt) <= worstTotal attempt fuel)%Z
  /\ (forall msg, fst rt = Thrown msg -> knownError msg)
  /\ (forall v, fst rt = Returned v ->
         payloadTooLarge fd = false
         /\ exists k, attempt <= k <= retries /\ api k = Candidate v).
Proof.
  induction fuel as [| fuel IH]; intros attempt Hsum; cbv zeta.
  - destruct (attempts_step 0 attempt)
      as [(r & ev & -> & Hev & Hthrown & Hret) | (ev & w & _ & Hne & _)];
      [| lia].
    destruct (attempt_trace_cost ev attempt Hev) as (Hp & Hwc & Hi & Htw).
    cbn [fst snd worstTotal].
    split; [lia |]. split; [lia |]. split; [lia |]. split; [lia |].
    split; [assumption |].
    intros v Hv. destruct (Hret v Hv) as [Hapi Hfd].
    split; [assumption |]. exists attempt. split; [lia | assumption].
  - pose proof (worstTotal_nonneg (S fuel) attempt) as Hnonneg.
    destruct (attempts_step (S fuel) attempt)
      as [(r & ev & -> & Hev & Hthrown & Hret)
         | (ev & w & Hev & Hne & Hw & ->)];
      destruct (attempt_trace_cost ev attempt Hev) as (Hp & Hwc & Hi & Htw).
    + cbn [fst snd].
      split; [lia |]. split; [lia |]. split; [lia |]. split; [lia |].
      split; [assumption |].
      intros v Hv. destruct (Hret v Hv) as [Hapi Hfd].
      split; [assumption |]. exists attempt. split; [lia | assumption].
    + specialize (IH (S attempt) ltac:(lia)). cbv zeta in IH.
      destruct IH as (IHp & IHwc & IHi & IHtw & IHthrown & IHret).
      destruct (wait_cost w) as (Wp & Wwc & Wi & Wtw).
      cbn [fst snd].
      change (Wait w :: ?t) with ([Wait w] ++ t).
      rewrite !posts_app, !waitCount_app, !invocations_app, !totalWait_app.
      cbn [worstTotal].
      split; [lia |]. split; [lia |]. split; [lia |]. split; [lia |].
      split; [assumption |].
      intros v Hv. destruct (IHret v Hv) as (Hfd & k & Hk & Hapi).
      split; [assumption |]. exists k. split; [lia | assumption].
Qed.

End GatewayBounds.

Lemma call_cost (api : provider) (fd : option fileData) (retries : nat)
    (r : completion) (ev : list event) :
  callGeminiAPI api fd retries = (r, ev) ->
  invocations ev = 1 /\ posts ev <= retries /\ waitCount ev <= retries - 1
  /\ (0 <= totalWait ev <= worstTotal 1 (retries - 1))%Z.
Proof.
  unfold callGeminiAPI. intros Hcall.
  destruct retries as [| fuel].
  - cbn in Hcall. injection Hcall as <- <-.
    split; [reflexivity |]. split; [vm_compute; lia |].
    split; [vm_compute; lia |]. cbn. lia.
  - pose proof (attempts_bounds api fd (S fuel) fuel 1 ltac:(lia)) as Hb.
    cbv zeta in Hb.
    destruct (attempts api fd (S fuel) (S fuel) 1) as [r' t].
    injection Hcall as <- <-. cbn [fst snd] in Hb.
    destruct Hb as (Hp & Hwc & Hi & Htw & _).
    change (Invoke (S fuel) :: t) with ([Invoke (S fuel)] ++ t).
    rewrite invocations_app, posts_app, waitCount_app, totalWait_app.
    replace (S fuel - 1) with fuel by lia.
    change (invocations [Invoke (S fuel)]) with 1.
    change (posts [Invoke (S fuel)]) with 0.
    change (waitCount [Invoke (S fuel)]) with 0.
    change (totalWait [Invoke (S fuel)]) with 0%Z.
    lia.
Qed.

Lemma call_thrown_known (api : provider) (fd : option fileData)
    (retries : nat) (msg : string) (ev : list event) :
  callGeminiAPI api fd retries = (Thrown msg, ev) ->
  knownError msg.
Proof.
  unfold callGeminiAPI. destruct retries as [| fuel]; [discriminate |].
  pose proof (attempts_bounds api fd (S fuel) fuel 1 ltac:(lia)) as Hb.
  cbv zeta in Hb.
  destruct (attempts api fd (S fuel) (S fuel) 1) as [r t].
  cbn [fst snd] in *. intros [= -> _]. by apply Hb.
Qed.

Lemma call_returned_provenance (api : provider) (fd : option fileData)
    (retries : nat) (v : value) (ev : list event) :
  1 <= retries ->
  callGeminiAPI api fd retries = (Returned v, ev) ->
  payloadTooLarge fd = false
  /\ exists k, 1 <= k <= retries /\ api k = Candidate v.
Proof.
  intros Hpos. unfold callGeminiAPI. destruct retries as [| fuel]; [lia |].
  pose proof (attempts_bounds api fd (S fuel) fuel 1 ltac:(lia)) as Hb.
  cbv zeta in Hb.
  destruct (attempts api fd (S fuel) (S fuel) 1) as [r t].
  cbn [fst snd] in *. intros [= -> _]. by apply Hb.
Qed.

(** Whatever the provider does, one call of the gateway with a budget
    of [retries] posts at most [retries] times, waits at most
    [retries - 1] times and, in total, no longer than the worst delays
    of attempts 1 to [retries - 1] (150 s for a budget of 3). *)
Theorem gateway_call_within_budget
    (api : provider) (fd : option fileData) (retries : nat) :
  let t := snd (callGeminiAPI api fd retries) in
  invocations t = 1 /\ posts t <= retries /\ waitCount t <= retries - 1
  /\ (0 <= totalWait t <= worstTotal 1 (retries - 1))%Z.
Proof.
  cbv zeta. destruct (callGeminiAPI api fd retries) as [r ev] eqn:Hcall.
  exact (call_cost api fd retries r ev Hcall).
Qed.

(** Every error the gateway throws carries one of four messages:
    OVERLOADED, RATE_LIMITED, or a text opening with INVALID_REQUEST:
    or FAILED_AFTER_RETRIES:. *)
Theorem gateway_thrown_messages
    (api : provider) (fd : option fileData) (retries : nat) (msg : string) :
  fst (callGeminiAPI api fd retries) = Thrown msg ->
  knownError msg.
Proof.
  destruct (callGeminiAPI api fd retries) as [r ev] eqn:Hcall.
  cbn [fst]. intros ->. exact (call_thrown_known _ _ _ _ _ Hcall).
Qed.

(** A provider that goes silent. *)
Lemma gateway_thrown_messages_witness :
  knownError "FAILED_AFTER_RETRIES: timeout of 120000ms exceeded".
Proof.
  apply (gateway_thrown_messages timingOut None 3). reflexivity.
Defined.

(** With a budget of at least one, the text the gateway returns is the
    candidate text the provider sent at one of the attempts within the
    budget; and nothing is returned for a payload above 20 MB. *)
Theorem gateway_returns_provider_text
    (api : provider) (fd : option fileData) (retries : nat) (v : value) :
  1 <= retries ->
  fst (callGeminiAPI api fd retries) = Returned v ->
  payloadTooLarge fd = false
  /\ exists k, 1 <= k <= retries /\ api k = Candidate v.
Proof.
  intros Hpos.
  destruct (callGeminiAPI api fd retries) as [r ev] eqn:Hcall.
  cbn [fst]. intros ->. exact (call_returned_provenance _ _ _ _ _ Hpos Hcall).
Qed.

Lemma gateway_returns_provider_text_witness :
  payloadTooLarge None = false
  /\ exists k, 1 <= k <= 3 /\ flaky "API Working" k = Candidate (VText "API Working").
Proof.
  apply (gateway_returns_provider_text (flaky "API Working") None 3);
    [lia | reflexivity].
Defined.

Section GatewayRecovery.

Variable api : provider.
Variable fd : option fileData.
Variable retries : nat.

Lemma attempts_first_candidate (fuel attempt : nat) (v : value) :
  payloadTooLarge fd = false ->
  api attempt = Candidate v ->
  attempts api fd retries (S fuel) attempt = (Returned v, [Post attempt]).
Proof.
  intros Hfd Hapi. cbn [attempts]. unfold tryAttempt. rewrite Hfd, Hapi.
  reflexivity.
Qed.

Lemma attempts_recover (v : value) (n : nat) :
  forall fuel attempt,
  payloadTooLarge fd = false ->
  attempt + n <= retries ->
  n <= fuel ->
  (forall j, attempt <= j < attempt + n ->
     exists e, thrownBy (api j) = Some e /\ classify e <> BadRequest) ->
  api (attempt + n) = Candidate v ->
  attempts api fd retries (S fuel) attempt =
    (Returned v,
     retryTrace (fun j => backoff (classAt api j) j) (S n) attempt).
Proof.
  induction n as [| n IH]; intros fuel attempt Hfd Hle Hfuel Hfail Hok.
  - rewrite Nat.add_0_r in Hok.
    by rewrite (attempts_first_candidate fuel attempt v).
  - destruct fuel as [| fuel]; [lia |].
    destruct (Hfail attempt) as (e & He & Hce); [lia |].
    rewrite (attempts_continue api fd retries (S fuel) attempt e Hfd He Hce);
      [| lia].
    rewrite (IH fuel (S attempt)); try assumption; try lia.
    + assert (Hclass : classAt api attempt = classify e)
        by (unfold classAt; rewrite He; reflexivity).
      cbn [retryTrace]. rewrite Hclass. reflexivity.
    + intros j Hj. apply Hfail. lia.
    + by replace (S attempt + n) with (attempt + S n) by lia.
Qed.

End GatewayRecovery.

(** A call whose first [k - 1] attempts fail (none as a bad request)
    and whose attempt [k], within the budget, brings a candidate whose
    first part can be read returns that part's text after [k] posts,
    having waited after each failure the delay of its class.  (A
    candidate whose first part cannot be read is a failure like the
    others: the TypeError is caught and the attempt retried.) *)
Theorem gateway_recovers_after_failures
    (api : provider) (fd : option fileData) (retries k : nat) (v : value) :
  payloadTooLarge fd = false ->
  1 <= k <= retries ->
  (forall j, 1 <= j < k ->
     exists e, thrownBy (api j) = Some e /\ classify e <> BadRequest) ->
  api k = Candidate v ->
  callGeminiAPI api fd retries =
    (Returned v,
     Invoke retries :: retryTrace (fun j => backoff (classAt api j) j) k 1).
Proof.
  intros Hfd Hk Hfail Hok. unfold callGeminiAPI.
  destruct retries as [| fuel]; [lia |].
  destruct k as [| n]; [lia |].
  rewrite (attempts_recover api fd (S fuel) v n fuel 1 Hfd).
  - reflexivity.
  - lia.
  - lia.
  - intros j Hj. apply Hfail. lia.
  - exact Hok.
Qed.

(** Rate limited, then timed out, then answered. *)
Lemma gateway_recovers_after_failures_witness :
  callGeminiAPI (flaky "API Working") None 3 =
    (Returned (VText "API Working"),
     [Invoke 3; Post 1; Wait 30000; Post 2; Wait 10000; Post 3]).
Proof.
  apply (gateway_recovers_after_failures (flaky "API Working") None 3 3
           (VText "API Working"));
    [reflexivity | lia | | reflexivity].
  intros j Hj.
  assert (Hcases : j = 1 \/ j = 2) by lia.
  destruct Hcases as [-> | ->]; eexists; (split; [reflexivity | discriminate]).
Defined.

Lemma waits_only_cost (f : nat -> Z) (l : list nat) :
  posts (map (fun k => Wait (f k)) l) = 0
  /\ waitCount (map (fun k => Wait (f k)) l) = length l.
Proof.
  induction l as [| k l [IHp IHw]]; [by split |].
  change (map (fun k => Wait (f k)) (k :: l))
    with ([Wait (f k)] ++ map (fun k => Wait (f k)) l).
  rewrite posts_app, waitCount_app, IHp, IHw. by split.
Qed.

(** A payload above 20 MB is never posted, whatever the budget; the
    call still runs through every attempt, waiting after each but the
    last, and ends with the FAILED_AFTER_RETRIES message that carries
    the size complaint. *)
Theorem oversized_payload_never_posts
    (api : provider) (fd : option fileData) (retries : nat) :
  payloadTooLarge fd = true ->
  1 <= retries ->
  let '(r, t) := callGeminiAPI api fd retries in
  r = Thrown "FAILED_AFTER_RETRIES: File too large for processing. Please use a smaller file (< 20MB)."
  /\ posts t = 0 /\ waitCount t = retries - 1.
Proof.
  intros Hfd Hpos. rewrite (oversized_call api fd retries Hfd Hpos).
  split; [reflexivity |].
  change (Invoke retries :: ?t) with ([Invoke retries] ++ t).
  rewrite posts_app, waitCount_app.
  destruct (waits_only_cost (fun k => (5000 * Z.of_nat k)%Z)
              (seq 1 (retries - 1))) as [-> ->].
  rewrite length_seq. by split.
Qed.

(** A 25 MB attachment and a budget of 3. *)
Lemma oversized_payload_never_posts_witness :
  let '(r, t) := callGeminiAPI timingOut (Some (pdfOfSize (25 * MB))) 3 in
  r = Thrown "FAILED_AFTER_RETRIES: File too large for processing. Please use a smaller file (< 20MB)."
  /\ posts t = 0 /\ waitCount t = 2.
Proof.
  apply (oversized_payload_never_posts timingOut
           (Some (pdfOfSize (25 * MB))) 3);
    [reflexivity | lia].
Defined.


(** ** What every request keeps *)

Lemma empty_trace_cost :
  invocations [] = 0 /\ posts [] = 0 /\ totalWait [] = 0%Z.
Proof. repeat split. Qed.

Lemma worstTotal_call_sites :
  worstTotal 1 (2 - 1) = 30000%Z /\ worstTotal 1 (3 - 1) = 150000%Z.
Proof. split; reflexivity. Qed.

(** Any request to any route invokes the gateway at most once, posts
    at most the budget of its route (2 for the CV stage, 3 for the
    other stages, none for force-fallback and retry) and spends at most
    150 s in backoff waits. *)
Theorem request_gateway_budget (e : env) (r : request) (s : session) :
  let t := trace (handle e r s) in
  invocations t <= 1 /\ posts t <= budget r
  /\ (0 <= totalWait t <= 150000)%Z.
Proof.
  cbv zeta. destruct empty_trace_cost as (Ei & Ep & Et).
  destruct r; run_handler; simplify_eq; cbn [budget];
    try (rewrite Ei, Ep, Et; lia);
    match goal with
    | H : callGeminiAPI _ _ _ = _ |- _ =>
        destruct (call_cost _ _ _ _ _ H) as (Hi & Hp & _ & Ht)
    end;
    pose proof worstTotal_call_sites as (W2 & W3); lia.
Qed.

Lemma handle_keeps_inputs (e : env) (r : request) (s : session) :
  sameInputs s (after (handle e r s)).
Proof.
  unfold sameInputs. destruct r; run_handler;
    cbn [sessionId audioPath videoPath cvPath jobDescription mediaType
         createdAt withStatus withResult withResults withoutResult
         withCompletedAt];
    repeat split; congruence.
Qed.

(** No sequence of requests changes what [initialize] stored as the
    session's inputs: id, file paths, job description, media type and
    creation time. *)
Theorem requests_keep_inputs (script : list (env * request)) (s : session) :
  sameInputs s (fst (run script s)).
Proof.
  revert s. induction script as [| [e r] rest IH]; intros s.
  - unfold sameInputs. cbn. repeat split.
  - cbn [run]. specialize (IH (after (handle e r s))).
    destruct (run rest (after (handle e r s))) as [s' t]. cbn [fst] in *.
    pose proof (handle_keeps_inputs e r s) as Hstep.
    unfold sameInputs in *.
    destruct IH as (I1 & I2 & I3 & I4 & I5 & I6 & I7).
    destruct Hstep as (S1 & S2 & S3 & S4 & S5 & S6 & S7).
    repeat split; congruence.
Qed.


(** The retry route knows the six stage step names only: any other
    name is answered 400 "Invalid step" with the list of the six and
    the session untouched, while each of the six is answered with a
    redirect and no gateway event. *)
Theorem retry_step_names (step : string) (s : session) :
  (step ∉ retrySteps ->
     retry step s =
       respond s
         (Json 400 (Failed {| error := "Invalid step"; missing := [];
                              availableSteps := retrySteps;
                              canUseFallback := false;
                              canRetry := false |})) [])
  /\ (step ∈ retrySteps ->
        exists st, step = stepName st
          /\ sent (retry step s) = Redirect 307 (primary st) (sessionId s)
          /\ trace (retry step s) = []).
Proof.
  split.
  - intros Hnot. unfold retry, retrySteps in *.
    destruct (String.eqb_spec step "cv_analysis") as [-> | _];
      [exfalso; apply Hnot; set_solver |].
    destruct (String.eqb_spec step "transcription") as [-> | _];
      [exfalso; apply Hnot; set_solver |].
    destruct (String.eqb_spec step "face_analysis") as [-> | _];
      [exfalso; apply Hnot; set_solver |].
    destruct (String.eqb_spec step "technical_analysis") as [-> | _];
      [exfalso; apply Hnot; set_solver |].
    destruct (String.eqb_spec step "communication_analysis") as [-> | _];
      [exfalso; apply Hnot; set_solver |].
    destruct (String.eqb_spec step "final_report") as [-> | _];
      [exfalso; apply Hnot; set_solver |].
    reflexivity.
  - intros Hin. unfold retrySteps in Hin.
    apply list_elem_of_In in Hin. cbn in Hin.
    destruct Hin as [<- | [<- | [<- | [<- | [<- | [<- | []]]]]]].
    + exists CvAnalysis. by rewrite (retry_stage CvAnalysis).
    + exists Transcription. by rewrite (retry_stage Transcription).
    + exists Face. by rewrite (retry_stage Face).
    + exists Technical. by rewrite (retry_stage Technical).
    + exists Communication. by rewrite (retry_stage Communication).
    + exists Final. by rewrite (retry_stage Final).
Qed.

Lemma retry_step_names_witness :
  retry "final_analysis" analyzedSession =
    respond analyzedSession
      (Json 400 (Failed {| error := "Invalid step"; missing := [];
                           availableSteps := retrySteps;
                           canUseFallback := false;
                           canRetry := false |})) [].
Proof.
  apply (retry_step_names "final_analysis" analyzedSession).
  unfold retrySteps. intros Hin.
  apply list_elem_of_In in Hin. cbn in Hin. intuition discriminate.
Defined.

(** ** Overload, fallback and what the stages store *)

Lemma retryTrace_ext (f g : nat -> Z) (fuel : nat) :
  forall attempt,
  (forall k, attempt <= k -> f k = g k) ->
  retryTrace f fuel attempt = retryTrace g fuel attempt.
Proof.
  induction fuel as [| fuel IH]; intros attempt Hfg; [reflexivity |].
  destruct fuel as [| fuel]; [reflexivity |].
  change (Post attempt :: Wait (f attempt) :: retryTrace f (S fuel) (S attempt)
          = Post attempt :: Wait (g attempt)
              :: retryTrace g (S fuel) (S attempt)).
  rewrite (Hfg attempt) by lia.
  rewrite (IH (S attempt)); [reflexivity |].
  intros k Hk. apply Hfg. lia.
Qed.

Lemma posts_retryTrace (f : nat -> Z) (fuel : nat) :
  forall attempt, posts (retryTrace f fuel attempt) = fuel.
Proof.
  induction fuel as [| fuel IH]; intros a; [reflexivity |].
  destruct fuel as [| fuel]; [reflexivity |].
  change (retryTrace f (S (S fuel)) a)
    with ([Post a; Wait (f a)] ++ retryTrace f (S fuel) (S a)).
  rewrite posts_app, (IH (S a)). reflexivity.
Qed.

Lemma overloaded_call (api : provider) (fd : option fileData) (retries : nat) :
  payloadTooLarge fd = false ->
  1 <= retries ->
  (forall k, 1 <= k <= retries ->
     exists e, thrownBy (api k) = Some e /\ classify e = Overloaded) ->
  exists ev,
    callGeminiAPI api fd retries = (Thrown "OVERLOADED", ev)
    /\ posts ev = retries.
Proof.
  intros Hfd Hpos Hall. unfold callGeminiAPI.
  destruct retries as [| fuel]; [lia |].
  destruct (Hall (S fuel)) as (last & Hlast & Hclass); [lia |].
  rewrite (attempts_all_fail api fd (S fuel) last fuel 1 Hfd); try lia;
    try assumption.
  - rewrite Hclass. eexists. split; [reflexivity |].
    change (Invoke (S fuel) :: ?t) with ([Invoke (S fuel)] ++ t).
    rewrite posts_app. change (posts [Invoke (S fuel)]) with 0.
    rewrite posts_retryTrace. reflexivity.
  - intros k Hk. destruct (Hall k) as (e & He & Hce); [lia |].
    exists e. split; [assumption | congruence].
Qed.

Lemma fallback_texts_truthy (fileName jd : string) (m : media) :
  truthy (VText (generateFallbackCVAnalysis fileName jd)) = true
  /\ truthy (VText (generateFallbackTranscription fileName m jd)) = true
  /\ truthy (VText (generateFallbackFaceAnalysis fileName jd)) = true.
Proof. repeat split. Qed.

(** When the provider is overloaded at each of the three attempts of
    the transcription stage (file within the processing cap), the stage
    answers 200 in fallback mode: the placeholder transcription is
    stored, the status is [<media>_transcribed_fallback], every other
    entry is as before, and three posts were made. *)
Theorem overloaded_transcription_falls_back
    (files : filesystem) (p : provider) (s : session) (path : string)
    (bytes : N) :
  orPath (videoPath s) (audioPath s) = Some path ->
  path <> "" ->
  files path = Some bytes ->
  (bytes <= processingSizeLimit (mediaType s) * MB)%N ->
  (forall k, 1 <= k <= 3 ->
     exists e, thrownBy (p k) = Some e /\ classify e = Overloaded) ->
  let rep := transcribeMedia files p s in
  let text :=
    VText (generateFallbackTranscription (basename path) (mediaType s)
             (jobDescription s)) in
  sent rep =
    Json 200 (Produced text (Some (nextAfterTranscription (mediaType s))) true)
  /\ status (after rep) = mediaName (mediaType s) +:+ "_transcribed_fallback"
  /\ results (after rep) = <["transcription" := text]> (results s)
  /\ truthyAt (results (after rep)) "transcription" = true
  /\ posts (trace rep) = 3.
Proof.
  intros Hpath Hne Hstat Hsize Hover. cbv zeta.
  assert (Hfd : payloadTooLarge
                  (Some {| mimeType := getMimeType path; byteLength := bytes |})
                = false).
  { cbn. apply N.ltb_ge. destruct (mediaType s); cbn in Hsize; unfold MB in *;
      lia. }
  destruct (overloaded_call p _ 3 Hfd ltac:(lia) Hover) as (ev & Hcall & Hposts).
  unfold transcribeMedia, fileToBase64.
  cbn [videoPath audioPath mediaType withStatus jobDescription].
  rewrite Hpath. apply String.eqb_neq in Hne. rewrite Hne, Hstat.
  assert (Hmax : (maxSize (mediaType s) * MB <? bytes)%N = false).
  { apply N.ltb_ge. destruct (mediaType s); cbn in *; unfold MB in *; lia. }
  assert (Hlim : (processingSizeLimit (mediaType s) * MB <? bytes)%N = false)
    by (apply N.ltb_ge; lia).
  rewrite Hmax, Hlim, Hcall.
  change (overloadSignal "OVERLOADED") with true.
  cbn [after sent trace respond results status withResult withResults
       withStatus].
  split; [reflexivity |]. split; [reflexivity |]. split; [reflexivity |].
  split; [| exact Hposts].
  unfold truthyAt. rewrite lookup_insert_eq.
  apply (fallback_texts_truthy (basename path) (jobDescription s)
           (mediaType s)).
Qed.

Lemma overloaded_transcription_falls_back_witness :
  let rep := transcribeMedia disk overloaded videoSession in
  let text :=
    VText (generateFallbackTranscription "video-1.mp4" video
             "Senior Backend Engineer") in
  sent rep = Json 200 (Produced text (Some "face_analysis") true)
  /\ status (after rep) = "video_transcribed_fallback"
  /\ results (after rep) = <["transcription" := text]> ∅
  /\ truthyAt (results (after rep)) "transcription" = true
  /\ posts (trace rep) = 3.
Proof.
  apply (overloaded_transcription_falls_back disk overloaded videoSession
           "uploads/video-1.mp4" (5 * MB));
    [reflexivity | discriminate | reflexivity | vm_compute; discriminate |].
  intros k _. eexists. split; reflexivity.
Defined.

Lemma fallback_cv (s : session) :
  fallback "cv_analysis" s =
    let result :=
      VText (generateFallbackCVAnalysis (basename (cvPath s))
               (jobDescription s)) in
    respond
      (withStatus "cv_analyzed_fallback" (withResult "cvAnalysis" result s))
      (Json 200 (Produced result (Some "media_transcription") true)) [].
Proof. reflexivity. Qed.

Lemma fallback_transcription (s : session) (path : string) :
  orPath (videoPath s) (audioPath s) = Some path ->
  fallback "transcription" s =
    let result :=
      VText (generateFallbackTranscription (basename path) (mediaType s)
               (jobDescription s)) in
    respond
      (withStatus (mediaName (mediaType s) +:+ "_transcribed_fallback")
         (withResult "transcription" result s))
      (Json 200 (Produced result
                   (Some (nextAfterTranscription (mediaType s))) true)) [].
Proof.
  intros Hpath. unfold fallback.
  change (String.eqb "transcription" "cv_analysis") with false.
  change (String.eqb "transcription" "transcription") with true.
  cbv iota. rewrite Hpath. reflexivity.
Qed.

(** Placeholders count as results: after the force-fallback route has
    filled in the CV analysis and the transcription, the technical and
    the communication analysis pass their prerequisite checks and go to
    the gateway. *)
Theorem fallback_results_satisfy_prerequisites
    (p : provider) (s : session) (path : string) :
  orPath (videoPath s) (audioPath s) = Some path ->
  let s' := after (fallback "transcription" (after (fallback "cv_analysis" s))) in
  invocations (trace (technicalAnalysis p s')) = 1
  /\ invocations (trace (communicationAnalysis p s')) = 1
  /\ status s' = mediaName (mediaType s) +:+ "_transcribed_fallback".
Proof.
  intros Hpath. cbv zeta.
  rewrite fallback_cv. cbn [after respond].
  rewrite (fallback_transcription _ path) by exact Hpath.
  cbn [after respond mediaType jobDescription withStatus withResult
       withResults results].
  unfold technicalAnalysis, communicationAnalysis, truthyAt.
  cbn [results withStatus withResult withResults status].
  rewrite lookup_insert_eq.
  rewrite lookup_insert_ne by discriminate. rewrite lookup_insert_eq.
  destruct (fallback_texts_truthy (basename path) (jobDescription s)
              (mediaType s)) as (_ & -> & _).
  destruct (fallback_texts_truthy (basename (cvPath s)) (jobDescription s)
              (mediaType s)) as (-> & _ & _).
  cbn [negb orb].
  destruct (callGeminiAPI p None 3) as [r ev] eqn:Hcall.
  destruct (call_cost _ _ _ _ _ Hcall) as (Hi & _).
  destruct r; cbn [trace respond]; repeat split; try assumption.
Qed.

Lemma fallback_results_satisfy_prerequisites_witness :
  let s' := after (fallback "transcription"
                     (after (fallback "cv_analysis" audioSession))) in
  invocations (trace (technicalAnalysis overloaded s')) = 1
  /\ invocations (trace (communicationAnalysis overloaded s')) = 1
  /\ status s' = "audio_transcribed_fallback".
Proof.
  apply (fallback_results_satisfy_prerequisites overloaded audioSession
           "uploads/audio-1.mp3").
  reflexivity.
Defined.

(** Whatever a stage answers 200 with is what it stored under its key,
    and it is either a candidate text the provider sent within the
    stage's budget (reported as not fallback) or, for the first three
    stages only, a non-empty placeholder (reported as fallback).  The
    technical analysis, the communication analysis and the final report
    never answer in fallback mode. *)
Theorem stage_content_provenance
    (st : stage) (e : env) (s : session) (v : value)
    (next : option string) (fb : bool) :
  sent (handle e (primary st) s) = Json 200 (Produced v next fb) ->
  results (after (handle e (primary st) s)) !! resultKey st = Some v
  /\ ((fb = false
       /\ exists k, 1 <= k <= budget (primary st) /\ api e k = Candidate v)
      \/ (fb = true
          /\ (st = CvAnalysis \/ st = Transcription \/ st = Face)
          /\ truthy v = true)).
Proof.
  destruct st; cbn [primary resultKey budget]; run_handler; simplify_eq;
    intros Hsent; simplify_eq;
    (split; [apply lookup_insert_eq |]);
    try (left; split; [reflexivity |];
         match goal with
         | H : callGeminiAPI _ _ _ = (Returned _, _) |- _ =>
             apply call_returned_provenance in H as (_ & k & Hk & Hapi);
             [exists k; split; [lia | exact Hapi] | lia]
         end);
    right; (split; [reflexivity |]); (split; [by eauto |]); reflexivity.
Qed.

Lemma stage_content_provenance_witness :
  results (after (handle (world (flaky "Competency: ...")) TechnicalAnalysis
                    transcribedSession)) !! "technicalAnalysis"
    = Some (VText "Competency: ...")
  /\ ((false = false
       /\ exists k, 1 <= k <= 3
            /\ flaky "Competency: ..." k = Candidate (VText "Competency: ..."))
      \/ (false = true
          /\ (Technical = CvAnalysis \/ Technical = Transcription
              \/ Technical = Face)
          /\ truthy (VText "Competency: ...") = true)).
Proof.
  apply (stage_content_provenance Technical
           (world (flaky "Competency: ...")) transcribedSession
           (VText "Competency: ...") (Some "communication_analysis") false).
  reflexivity.
Defined.

(** A final report asked for while one of cvAnalysis, transcription,
    technicalAnalysis and communicationAnalysis is missing or empty is
    answered 400 "Incomplete analysis" with exactly those of the four
    names, in this order, whose result is falsy; nothing is changed and
    the gateway is not called.  When all four are truthy the request
    goes to the gateway, whether or not a face analysis is there. *)
Theorem final_report_lists_missing
    (p : provider) (now : Z) (s : session) :
  let absent :=
    List.filter (fun name => negb (truthyAt (results s) name))
      ["cvAnalysis"; "transcription"; "technicalAnalysis";
       "communicationAnalysis"] in
  (absent <> [] ->
     finalReport p now s =
       respond s
         (Json 400 (Failed {| error := "Incomplete analysis";
                              missing := absent;
                              availableSteps := [];
                              canUseFallback := false;
                              canRetry := false |})) [])
  /\ (absent = [] -> invocations (trace (finalReport p now s)) = 1).
Proof.
  cbv zeta. unfold finalReport, missingAnalyses, requiredAnalyses.
  destruct (List.filter _ _) as [| name rest] eqn:Hfilter.
  - split; [congruence |]. intros _.
    destruct (callGeminiAPI p None 3) as [r ev] eqn:Hcall.
    destruct (call_cost _ _ _ _ _ Hcall) as (Hi & _).
    by destruct r.
  - split; [reflexivity | discriminate].
Qed.

(** With only the CV analysis and the transcription done. *)
Lemma final_report_lists_missing_witness :
  finalReport (answering "...") 0 transcribedSession =
    respond transcribedSession
      (Json 400 (Failed {| error := "Incomplete analysis";
                           missing := ["technicalAnalysis";
                                       "communicationAnalysis"];
                           availableSteps := [];
                           canUseFallback := false; canRetry := false |})) [].
Proof.
  apply (final_report_lists_missing (answering "...") 0 transcribedSession).
  vm_compute. discriminate.
Defined.

(** A video between the processing cap (8 MB) and the upload cap
    (10 MB) passes [initialize] but neither media stage sends it to the
    gateway: the transcription ends in the handler's outer catch (500
    "Failed to transcribe media", retry hint), the face analysis
    answers 400; both leave the status at [error] and write nothing. *)
Theorem video_between_caps_is_not_sent
    (files : filesystem) (p : provider) (s : session) (path : string)
    (bytes : N) :
  mediaType s = video ->
  videoPath s = Some path ->
  path <> "" ->
  files path = Some bytes ->
  (8 * MB < bytes <= 10 * MB)%N ->
  transcribeMedia files p s =
    respond (withStatus "error" (withStatus "transcribing_media" s))
      (Json 500 (Failed (failRetry "Failed to transcribe media"))) []
  /\ faceAnalysis files p s =
       respond (withStatus "error" (withStatus "analyzing_face" s))
         (Json 400 (Failed (fail "File too large for face analysis"))) [].
Proof.
  intros Hmedia Hpath Hne Hstat [Hlow Hhigh].
  apply String.eqb_neq in Hne.
  assert (Hmax : (10 * MB <? bytes)%N = false) by (apply N.ltb_ge; lia).
  assert (Hlim : (8 * MB <? bytes)%N = true) by (apply N.ltb_lt; lia).
  split.
  - unfold transcribeMedia.
    cbn [videoPath audioPath mediaType withStatus]. rewrite Hpath, Hmedia.
    unfold orPath. rewrite Hne, Hstat.
    cbn [maxSize processingSizeLimit showLimit]. rewrite Hmax, Hlim, Hne.
    reflexivity.
  - unfold faceAnalysis. rewrite Hmedia, Hpath, Hne.
    cbn [videoPath withStatus]. rewrite Hstat, Hmax, Hlim.
    reflexivity.
Qed.

Lemma video_between_caps_is_not_sent_witness :
  transcribeMedia (diskOf (9 * MB)) (answering "...") videoSession =
    respond (withStatus "error" (withStatus "transcribing_media" videoSession))
      (Json 500 (Failed (failRetry "Failed to transcribe media"))) []
  /\ faceAnalysis (diskOf (9 * MB)) (answering "...") videoSession =
       respond (withStatus "error" (withStatus "analyzing_face" videoSession))
         (Json 400 (Failed (fail "File too large for face analysis"))) [].
Proof.
  apply (video_between_caps_is_not_sent (diskOf (9 * MB)) (answering "...")
           videoSession "uploads/video-1.mp4" (9 * MB));
    [reflexivity | reflexivity | discriminate | reflexivity
    | split; vm_compute; [reflexivity | discriminate]].
Defined.

(** ** The registry *)

(** ** The stages in sequence *)

Lemma call_first_success (p : provider) (fd : option fileData)
    (retries : nat) (v : value) :
  payloadTooLarge fd = false ->
  1 <= retries ->
  p 1 = Candidate v ->
  callGeminiAPI p fd retries = (Returned v, [Invoke retries; Post 1]).
Proof.
  intros Hfd Hpos Hp. unfold callGeminiAPI.
  destruct retries as [| fuel]; [lia |].
  by rewrite (attempts_first_candidate p fd (S fuel) fuel 1 v).
Qed.

Lemma analyzeCv_success files p s bytes v :
  files (cvPath s) = Some bytes ->
  (bytes <= 20 * MB)%N ->
  p 1 = Candidate v ->
  analyzeCv files p s =
    respond
      (withStatus "cv_analyzed"
         (withResult "cvAnalysis" v (withStatus "analyzing_cv" s)))
      (Json 200 (Produced v (Some "media_transcription") false))
      [Invoke 2; Post 1].
Proof.
  intros Hread Hsize Hp. unfold analyzeCv, fileToBase64.
  cbn [cvPath withStatus]. rewrite Hread.
  rewrite (call_first_success p _ 2 v); [reflexivity | | lia | assumption].
  cbn. apply N.ltb_ge. assumption.
Qed.

Lemma transcribeMedia_success files p s path bytes v :
  orPath (videoPath s) (audioPath s) = Some path ->
  path <> "" ->
  files path = Some bytes ->
  (bytes <= processingSizeLimit (mediaType s) * MB)%N ->
  p 1 = Candidate v ->
  transcribeMedia files p s =
    respond
      (withStatus (mediaName (mediaType s) +:+ "_transcribed")
         (withResult "transcription" v (withStatus "transcribing_media" s)))
      (Json 200 (Produced v (Some (nextAfterTranscription (mediaType s)))
                   false))
      [Invoke 3; Post 1].
Proof.
  intros Hpath Hne Hstat Hsize Hp.
  unfold transcribeMedia, fileToBase64.
  cbn [videoPath audioPath mediaType withStatus].
  rewrite Hpath. apply String.eqb_neq in Hne. rewrite Hne, Hstat.
  assert (Hmax : (maxSize (mediaType s) * MB <? bytes)%N = false).
  { apply N.ltb_ge. destruct (mediaType s); cbn in *; unfold MB in *; lia. }
  assert (Hlim : (processingSizeLimit (mediaType s) * MB <? bytes)%N = false)
    by (apply N.ltb_ge; lia).
  rewrite Hmax, Hlim.
  rewrite (call_first_success p _ 3 v); [reflexivity | | lia | assumption].
  cbn. apply N.ltb_ge.
  destruct (mediaType s); cbn in Hsize; unfold MB in *; lia.
Qed.

Lemma faceAnalysis_success files p s path bytes v :
  mediaType s = video ->
  videoPath s = Some path ->
  path <> "" ->
  files path = Some bytes ->
  (bytes <= 8 * MB)%N ->
  p 1 = Candidate v ->
  faceAnalysis files p s =
    respond
      (withStatus "face_analyzed"
         (withResult "faceAnalysis" v (withStatus "analyzing_face" s)))
      (Json 200 (Produced v (Some "technical_analysis") false))
      [Invoke 3; Post 1].
Proof.
  intros Hmedia Hpath Hne Hstat Hsize Hp.
  unfold faceAnalysis, fileToBase64. rewrite Hmedia, Hpath.
  apply String.eqb_neq in Hne. rewrite Hne, Hstat.
  assert (Hmax : (10 * MB <? bytes)%N = false)
    by (apply N.ltb_ge; unfold MB in *; lia).
  assert (Hlim : (8 * MB <? bytes)%N = false) by (apply N.ltb_ge; lia).
  rewrite Hmax, Hlim.
  rewrite (call_first_success p _ 3 v); [reflexivity | | lia | assumption].
  cbn. apply N.ltb_ge. unfold MB in *. lia.
Qed.

Lemma technicalAnalysis_success p s v :
  truthyAt (results s) "transcription" = true ->
  truthyAt (results s) "cvAnalysis" = true ->
  p 1 = Candidate v ->
  technicalAnalysis p s =
    respond
      (withStatus "technical_analyzed"
         (withResult "technicalAnalysis" v
            (withStatus "analyzing_technical" s)))
      (Json 200 (Produced v (Some "communication_analysis") false))
      [Invoke 3; Post 1].
Proof.
  intros Ht Hc Hp. unfold technicalAnalysis. rewrite Ht, Hc.
  rewrite (call_first_success p None 3 v eq_refl ltac:(lia) Hp). reflexivity.
Qed.

Lemma communicationAnalysis_success p s v :
  truthyAt (results s) "transcription" = true ->
  p 1 = Candidate v ->
  communicationAnalysis p s =
    respond
      (withStatus "communication_analyzed"
         (withResult "communicationAnalysis" v
            (withStatus "analyzing_communication" s)))
      (Json 200 (Produced v (Some "final_report") false))
      [Invoke 3; Post 1].
Proof.
  intros Ht Hp. unfold communicationAnalysis. rewrite Ht.
  rewrite (call_first_success p None 3 v eq_refl ltac:(lia) Hp). reflexivity.
Qed.

Lemma finalReport_success p now s v :
  missingAnalyses s = [] ->
  p 1 = Candidate v ->
  finalReport p now s =
    respond
      (withCompletedAt now
         (withStatus "completed"
            (withResult "finalReport" v
               (withStatus "generating_final_report" s))))
      (Json 200 (Produced v None false))
      [Invoke 3; Post 1].
Proof.
  intros Hm Hp. unfold finalReport. rewrite Hm.
  rewrite (call_first_success p None 3 v eq_refl ltac:(lia) Hp). reflexivity.
Qed.

(** The whole workflow on a video session: with a CV within 20 MB, a
    video within 8 MB and a provider that answers each stage at its
    first attempt with non-empty text, the six stages in order end with
    status [completed], [completedAt] set to the time of the final
    report, the six texts stored under their keys on top of what was
    there, six posts in all and no wait. *)
Theorem video_workflow_completes
    (files : filesystem) (now : Z) (s : session)
    (p1 p2 p3 p4 p5 p6 : provider) (v1 v2 v3 v4 v5 v6 : value)
    (path : string) (cvBytes bytes : N) :
  files (cvPath s) = Some cvBytes -> (cvBytes <= 20 * MB)%N ->
  mediaType s = video -> videoPath s = Some path -> path <> "" ->
  files path = Some bytes -> (bytes <= 8 * MB)%N ->
  p1 1 = Candidate v1 -> p2 1 = Candidate v2 -> p3 1 = Candidate v3 ->
  p4 1 = Candidate v4 -> p5 1 = Candidate v5 -> p6 1 = Candidate v6 ->
  truthy v1 = true -> truthy v2 = true ->
  truthy v4 = true -> truthy v5 = true ->
  let at_ p := {| fs := files; api := p; now := now |} in
  let '(s', t) :=
    run [(at_ p1, AnalyzeCv); (at_ p2, TranscribeMedia);
         (at_ p3, FaceAnalysis); (at_ p4, TechnicalAnalysis);
         (at_ p5, CommunicationAnalysis); (at_ p6, FinalReport)] s in
  status s' = "completed"
  /\ completedAt s' = Some now
  /\ results s' =
       <["finalReport" := v6]>
         (<["communicationAnalysis" := v5]>
            (<["technicalAnalysis" := v4]>
               (<["faceAnalysis" := v3]>
                  (<["transcription" := v2]>
                     (<["cvAnalysis" := v1]> (results s))))))
  /\ posts t = 6 /\ invocations t = 6 /\ totalWait t = 0%Z.
Proof.
  intros Hcv Hcvsize Hmedia Hpath Hne Hstat Hsize
         H1 H2 H3 H4 H5 H6 T1 T2 T4 T5.
  cbv zeta. cbn [run handle fs api Routes.now].
  rewrite (analyzeCv_success files p1 s cvBytes v1 Hcv Hcvsize H1).
  cbn [after trace respond].
  rewrite (transcribeMedia_success files p2 _ path bytes v2);
    [| cbn [videoPath audioPath withStatus withResult withResults];
       rewrite Hpath; unfold orPath;
       by rewrite (proj2 (String.eqb_neq _ _) Hne)
     | assumption | assumption
     | cbn [mediaType withStatus withResult withResults]; by rewrite Hmedia
     | assumption].
  cbn [after trace respond mediaType withStatus withResult withResults].
  rewrite Hmedia.
  rewrite (faceAnalysis_success files p3 _ path bytes v3);
    try assumption; try reflexivity.
  cbn [after trace respond].
  rewrite (technicalAnalysis_success p4 _ v4); [| | | assumption].
  2: { unfold truthyAt.
       cbn [results withStatus withResult withResults].
       rewrite lookup_insert_ne by discriminate.
       by rewrite lookup_insert_eq. }
  2: { unfold truthyAt.
       cbn [results withStatus withResult withResults].
       rewrite !lookup_insert_ne by discriminate.
       by rewrite lookup_insert_eq. }
  cbn [after trace respond].
  rewrite (communicationAnalysis_success p5 _ v5); [| | assumption].
  2: { unfold truthyAt.
       cbn [results withStatus withResult withResults].
       rewrite !lookup_insert_ne by discriminate.
       by rewrite lookup_insert_eq. }
  cbn [after trace respond].
  rewrite (finalReport_success p6 now _ v6); [| | assumption].
  2: { unfold missingAnalyses, requiredAnalyses. cbn [List.filter].
       repeat match goal with
       | |- context [truthyAt ?R ?k] =>
           let Hk := fresh "Hk" in
           assert (Hk : truthyAt R k = true)
             by (unfold truthyAt;
                 cbn [results withStatus withResult withResults];
                 rewrite ?lookup_insert_ne by discriminate;
                 rewrite lookup_insert_eq; assumption);
           rewrite Hk; clear Hk
       end.
       reflexivity. }
  cbn [after trace respond status completedAt results withCompletedAt
       withStatus withResult withResults].
  repeat split.
Qed.

Lemma video_workflow_completes_witness :
  let at_ p := {| fs := disk; api := p; now := 1700000060000%Z |} in
  let p := answering "Findings: ..." in
  let '(s', t) :=
    run [(at_ p, AnalyzeCv); (at_ p, TranscribeMedia);
         (at_ p, FaceAnalysis); (at_ p, TechnicalAnalysis);
         (at_ p, CommunicationAnalysis); (at_ p, FinalReport)] videoSession in
  status s' = "completed"
  /\ completedAt s' = Some 1700000060000%Z
  /\ results s' =
       <["finalReport" := VText "Findings: ..."]>
         (<["communicationAnalysis" := VText "Findings: ..."]>
            (<["technicalAnalysis" := VText "Findings: ..."]>
               (<["faceAnalysis" := VText "Findings: ..."]>
                  (<["transcription" := VText "Findings: ..."]>
                     (<["cvAnalysis" := VText "Findings: ..."]> ∅)))))
  /\ posts t = 6 /\ invocations t = 6 /\ totalWait t = 0%Z.
Proof.
  apply (video_workflow_completes disk 1700000060000 videoSession
           (answering "Findings: ...") (answering "Findings: ...")
           (answering "Findings: ...") (answering "Findings: ...")
           (answering "Findings: ...") (answering "Findings: ...")
           (VText "Findings: ...") (VText "Findings: ...")
           (VText "Findings: ...") (VText "Findings: ...")
           (VText "Findings: ...") (VText "Findings: ...")
           "uploads/video-1.mp4" (1 * MB) (5 * MB));
    try reflexivity; try discriminate; vm_compute; discriminate.
Defined.

(** ** MIME types of upload paths *)

Lemma basename_go_plain (acc s : string) :
  plain s = true -> basename_go acc s = acc.
Proof.
  revert acc. induction s as [| c s IH]; intros acc Hs; [reflexivity |].
  cbn [plain] in Hs. apply andb_prop in Hs as [Hc Hs].
  apply andb_prop in Hc as [_ Hslash]. apply negb_true_iff in Hslash.
  cbn [basename_go]. rewrite Hslash. by apply IH.
Qed.

Lemma basename_go_named (acc stem E : string) :
  plain stem = true -> plain E = true ->
  basename_go acc (stem +:+ String "." E) = acc.
Proof.
  revert acc. induction stem as [| c stem IH]; intros acc Hstem HE.
  - change (basename_go acc (String "." E) = acc).
    cbn [basename_go]. change (Ascii.eqb "." "/") with false.
    by apply basename_go_plain.
  - cbn [plain] in Hstem. apply andb_prop in Hstem as [Hc Hstem].
    apply andb_prop in Hc as [_ Hslash]. apply negb_true_iff in Hslash.
    change (basename_go acc (String c (stem +:+ String "." E)) = acc).
    cbn [basename_go]. rewrite Hslash. by apply IH.
Qed.

Lemma basename_go_dir (dir name : string) :
  forall acc,
  basename_go name name = name ->
  basename_go acc (dir +:+ String "/" name) = name.
Proof.
  induction dir as [| c dir IH]; intros acc Hname.
  - change (basename_go acc (String "/" name) = name).
    cbn [basename_go]. change (Ascii.eqb "/" "/") with true. exact Hname.
  - change (basename_go acc (String c (dir +:+ String "/" name)) = name).
    cbn [basename_go]. destruct (Ascii.eqb c "/"); by apply IH.
Qed.

Lemma extname_go_plain (acc s : string) :
  plain s = true -> extname_go acc s = acc.
Proof.
  revert acc. induction s as [| c s IH]; intros acc Hs; [reflexivity |].
  cbn [plain] in Hs. apply andb_prop in Hs as [Hc Hs].
  apply andb_prop in Hc as [Hdot _]. apply negb_true_iff in Hdot.
  cbn [extname_go]. rewrite Hdot. by apply IH.
Qed.

Lemma extname_go_named (acc stem E : string) :
  plain stem = true -> plain E = true ->
  extname_go acc (stem +:+ String "." E) = String "." E.
Proof.
  revert acc. induction stem as [| c stem IH]; intros acc Hstem HE.
  - change (extname_go acc (String "." E) = String "." E).
    cbn [extname_go]. change (Ascii.eqb "." ".") with true.
    by apply extname_go_plain.
  - cbn [plain] in Hstem. apply andb_prop in Hstem as [Hc Hstem].
    apply andb_prop in Hc as [Hdot _]. apply negb_true_iff in Hdot.
    change (extname_go acc (String c (stem +:+ String "." E))
            = String "." E).
    cbn [extname_go]. rewrite Hdot. by apply IH.
Qed.

Lemma mimeTypes_lookup (ext mime : string) :
  In (ext, mime) mimeTypes ->
  orElse (assoc ext mimeTypes) "application/octet-stream" = mime.
Proof.
  unfold mimeTypes. cbn [In]. intros Hin.
  repeat (destruct Hin as [[= <- <-] | Hin]; [reflexivity |]).
  contradiction.
Qed.

(** A file stored as [<dir>/<stem><ext>], where the stem is non-empty
    and has neither dot nor separator, gets the MIME type the table
    lists for its extension, whatever the case of the extension. *)
Theorem getMimeType_by_extension (dir stem E ext mime : string) :
  plain stem = true ->
  stem <> "" ->
  plain E = true ->
  toLowerCase (String "." E) = ext ->
  In (ext, mime) mimeTypes ->
  getMimeType (dir +:+ "/" +:+ stem +:+ String "." E) = mime.
Proof.
  intros Hstem Hne HE Hlower Hin.
  unfold getMimeType, extname, basename.
  change (dir +:+ "/" +:+ stem +:+ String "." E)
    with (dir +:+ String "/" (stem +:+ String "." E)).
  rewrite basename_go_dir by (by apply basename_go_named).
  destruct stem as [| c stem]; [congruence |].
  change (String c stem +:+ String "." E)
    with (String c (stem +:+ String "." E)).
  cbn [plain] in Hstem. apply andb_prop in Hstem as [_ Hstem].
  rewrite extname_go_named by assumption.
  rewrite Hlower. by apply mimeTypes_lookup.
Qed.

Lemma getMimeType_by_extension_witness :
  getMimeType "uploads/cv-1700000000000-123456789.PDF" = "application/pdf".
Proof.
  apply (getMimeType_by_extension "uploads" "cv-1700000000000-123456789"
           "PDF" ".pdf" "application/pdf");
    [reflexivity | discriminate | reflexivity | reflexivity |].
  unfold mimeTypes. cbn [In]. left. reflexivity.
Defined.

(** ** The client side *)

(** The step names the client's retry handler builds are accepted by
    the retry route for every card but the final report: for those the
    route redirects to the very endpoint the card starts; for the final
    report the client sends [final_analysis], which the route answers
    400 "Invalid step". *)
Theorem client_retry_names (s : session) :
  (forall t, t <> Frontend.FinalCard ->
     sent (retry (Frontend.retryStepName t) s) =
       Redirect 307 (Frontend.cardEndpoint t) (sessionId s))
  /\ Frontend.retryStepName Frontend.FinalCard = "final_analysis"
  /\ retry (Frontend.retryStepName Frontend.FinalCard) s =
       respond s
         (Json 400 (Failed {| error := "Invalid step"; missing := [];
                              availableSteps := retrySteps;
                              canUseFallback := false;
                              canRetry := false |})) [].
Proof.
  split; [| split; reflexivity].
  intros t Ht. destruct t; try congruence; reflexivity.
Qed.

(** The key under which the client files a card's result is the key
    under which the server stored the content it answered with. *)
Theorem client_result_key_matches_server
    (t : Frontend.analysisType) (e : env) (s : session) (v : value)
    (next : option string) (fb : bool) :
  sent (handle e (Frontend.cardEndpoint t) s) = Json 200 (Produced v next fb) ->
  results (after (handle e (Frontend.cardEndpoint t) s))
    !! Frontend.cardResultKey t = Some v.
Proof.
  destruct t; cbn [Frontend.cardEndpoint Frontend.cardResultKey
                   Frontend.typeName String.append];
    run_handler; simplify_eq; intros Hsent; simplify_eq;
    apply lookup_insert_eq.
Qed.

Lemma client_result_key_matches_server_witness :
  results (after (handle (world (answering "Clarity: ..."))
                    CommunicationAnalysis transcribedSession))
    !! "communicationAnalysis" = Some (VText "Clarity: ...").
Proof.
  apply (client_result_key_matches_server Frontend.CommunicationCard
           (world (answering "Clarity: ...")) transcribedSession
           (VText "Clarity: ...") (Some "final_report") false).
  reflexivity.
Defined.

Lemma updateStepStatus_lookup (stepId : nat) (st : Frontend.stepState)
    (steps : list Frontend.step) (i : nat) :
  Frontend.updateStepStatus stepId st steps !! i =
    (fun x => if (Frontend.id x =? stepId)%nat
              then Frontend.withStepStatus st x else x) <$> steps !! i.
Proof. unfold Frontend.updateStepStatus. apply list_lookup_fmap. Qed.

(** The progress update after a successful card keeps the number, the
    order, the ids and the titles of the steps; it marks the card's
    step completed and the next one (if the card is not the last)
    current, and leaves the status of every other step alone. *)
Theorem client_progress_update
    (t : Frontend.analysisType) (steps : list Frontend.step) :
  length (Frontend.progress t steps) = length steps
  /\ forall (i : nat) (x : Frontend.step),
    steps !! i = Some x ->
    exists y,
    Frontend.progress t steps !! i = Some y
    /\ Frontend.id y = Frontend.id x /\ Frontend.title y = Frontend.title x
    /\ Frontend.description y = Frontend.description x
    /\ Frontend.stepStatus y =
         if (Frontend.id x =? Frontend.stepMap t)%nat then Frontend.Completed
         else if (Frontend.id x =? Frontend.stepMap t + 1)%nat
                 && (Frontend.stepMap t <? 7)%nat
              then Frontend.Current
              else Frontend.stepStatus x.
Proof.
  split.
  { unfold Frontend.progress, Frontend.updateStepStatus.
    destruct (Frontend.stepMap t <? 7)%nat; by rewrite !length_map. }
  intros i x Hx. unfold Frontend.progress.
  destruct (Frontend.stepMap t <? 7)%nat eqn:Hlast;
    rewrite ?andb_true_r, ?andb_false_r;
    rewrite !updateStepStatus_lookup, Hx; cbn [fmap option_fmap option_map];
    eexists; (split; [reflexivity |]).
  - destruct (Frontend.id x =? Frontend.stepMap t)%nat eqn:Hid.
    + apply Nat.eqb_eq in Hid.
      cbn [Frontend.id Frontend.withStepStatus].
      assert (Hnext : (Frontend.id x =? Frontend.stepMap t + 1)%nat = false)
        by (apply Nat.eqb_neq; lia).
      rewrite Hnext. repeat split.
    + destruct (Frontend.id x =? Frontend.stepMap t + 1)%nat; repeat split.
  - destruct (Frontend.id x =? Frontend.stepMap t)%nat; repeat split.
Qed.

Lemma client_progress_update_witness :
  length (Frontend.progress Frontend.CvCard Frontend.ANALYSIS_STEPS) = 7
  /\ exists y,
    Frontend.progress Frontend.CvCard Frontend.ANALYSIS_STEPS !! 2 = Some y
    /\ Frontend.id y = 3 /\ Frontend.title y = "Video Transcription"
    /\ Frontend.description y = "Audio Extraction"
    /\ Frontend.stepStatus y = Frontend.Current.
Proof.
  destruct (client_progress_update Frontend.CvCard Frontend.ANALYSIS_STEPS)
    as [Hlength Hstep].
  split; [exact Hlength |].
  apply (Hstep 2
           {| Frontend.id := 3; Frontend.title := "Video Transcription";
              Frontend.description := "Audio Extraction";
              Frontend.stepStatus := Frontend.Pending |}).
  reflexivity.
Defined.

(** ** The download name of a report *)

Lemma chars_app (a b : string) :
  Pdf.chars (a +:+ b) = Pdf.chars a ++ Pdf.chars b.
Proof.
  induction a as [| c a IH]; [reflexivity |].
  change (c :: Pdf.chars (a +:+ b) = c :: (Pdf.chars a ++ Pdf.chars b)).
  by rewrite IH.
Qed.

Lemma title_char_safe (c : ascii) :
  Pdf.isSafeChar (lowerAscii (if Pdf.isAlnum c then c else "_"%char)) = true.
Proof. destruct c as [[] [] [] [] [] [] [] []]; reflexivity. Qed.

Lemma title_chars_safe (title : string) :
  Forall (fun c => Pdf.isSafeChar c = true)
    (Pdf.chars (toLowerCase (Pdf.replaceNonAlnum title))).
Proof.
  induction title as [| c title IH]; [constructor |].
  cbn [Pdf.replaceNonAlnum toLowerCase Pdf.chars].
  constructor; [apply title_char_safe | exact IH].
Qed.

Lemma date_chars_no_slash (date : string) :
  "/"%char ∉ Pdf.chars (Pdf.replaceSlashes date).
Proof.
  induction date as [| c date IH]; [apply not_elem_of_nil |].
  cbn [Pdf.replaceSlashes Pdf.chars]. rewrite not_elem_of_cons.
  split; [| exact IH].
  destruct (Ascii.eqb c "/") eqn:Hc; [discriminate |].
  apply Ascii.eqb_neq in Hc. congruence.
Qed.

(** The name under which a report is downloaded holds no path
    separator, whatever the title and the date text: the title part is
    as long as the title and made of [a-z], [0-9] and underscores only,
    and the slashes of the date are replaced. *)
Theorem pdf_file_name_is_safe (title dateGenerated : string) :
  ("/"%char ∉ Pdf.chars (Pdf.fileName title dateGenerated))
  /\ Forall (fun c => Pdf.isSafeChar c = true)
       (Pdf.chars (toLowerCase (Pdf.replaceNonAlnum title)))
  /\ String.length (toLowerCase (Pdf.replaceNonAlnum title))
     = String.length title.
Proof.
  split; [| split].
  - unfold Pdf.fileName. rewrite !chars_app, !elem_of_app.
    intros [Htitle | [Hsep | [Hdate | Hext]]].
    + pose proof (title_chars_safe title) as Hsafe.
      rewrite Forall_forall in Hsafe. specialize (Hsafe _ Htitle).
      discriminate.
    + apply list_elem_of_In in Hsep. cbn in Hsep. intuition discriminate.
    + by apply (date_chars_no_slash dateGenerated).
    + apply list_elem_of_In in Hext. cbn in Hext. intuition discriminate.
  - apply title_chars_safe.
  - induction title as [| c title IH]; [reflexivity |].
    cbn [Pdf.replaceNonAlnum toLowerCase String.length]. by rewrite IH.
Qed.

(** ** The closed vocabulary of a session *)

Lemma handle_status_value (e : env) (r : request) (s : session) :
  isStatusValue (mediaType s) (status s) = true ->
  isStatusValue (mediaType (after (handle e r s)))
    (status (after (handle e r s))) = true.
Proof.
  intros Hs. rewrite handle_mediaType.
  destruct (mediaType s) eqn:Hm; destruct r; run_handler;
    rewrite ?Hm; try assumption; try congruence; reflexivity.
Qed.

Lemma handle_result_keys (e : env) (r : request) (s : session) :
  dom (results s) ⊆ stageKeys ->
  dom (results (after (handle e r s))) ⊆ stageKeys.
Proof.
  intros Hs.
  destruct r; run_handler; try assumption;
    rewrite ?dom_insert_L, ?dom_delete_L;
    first [ apply union_least;
            [ apply singleton_subseteq_l, (bool_decide_unpack _);
              vm_compute; exact I
            | assumption ]
          | etrans; [apply subseteq_difference_l; reflexivity | assumption] ].
Qed.

(** From creation on, whatever is requested, the status of a session is
    one of seventeen strings (the transcription ones spelled with the
    session's own media type) and [results] holds no key besides the
    six stage keys. *)
Theorem session_vocabulary_is_closed (s0 s : session) :
  created s0 ->
  reachable anyRequest s0 s ->
  isStatusValue (mediaType s) (status s) = true
  /\ dom (results s) ⊆ stageKeys.
Proof.
  intros Hcreated Hreach.
  destruct (created_initial s0 Hcreated) as (Hstatus & Hresults & _).
  induction Hreach as [| e r s Hreach [IHs IHk] _].
  - rewrite Hstatus, Hresults. split; [by destruct (mediaType s0) |].
    rewrite dom_empty_L. apply empty_subseteq.
  - split; [by apply handle_status_value | by apply handle_result_keys].
Qed.

Lemma session_vocabulary_is_closed_witness :
  let s := after (handle (world overloaded) (Retry "face_analysis")
                    audioSession) in
  isStatusValue (mediaType s) (status s) = true
  /\ dom (results s) ⊆ stageKeys.
Proof.
  apply (session_vocabulary_is_closed audioSession).
  - exists "1700000000000abc", 1700000000000%Z, audioUpload, ∅.
    cbn. split; [reflexivity | apply lookup_insert_eq].
  - apply reach_step; [apply reach_start | exact I].
Defined.

(** ** The initialize route behind its upload middleware *)
















(** A 51 MB audio file is refused by the middleware (500), a 12 MB
    video by the handler (400), an audio file declared as [text/plain]
    by the filter (500); none of them stores a session. *)
Example initialize_route_refusals :
  let cv := {| Multer.fieldname := "cv"; Multer.mimetype := "application/pdf";
               Multer.stored := {| Upload.path := "uploads/cv-1.pdf";
                                   Upload.size := 1 * MB;
                                   Upload.originalname := "cv.pdf" |} |} in
  let media field mime bytes :=
    {| Multer.fieldname := field; Multer.mimetype := mime;
       Multer.stored := {| Upload.path := "uploads/media-1";
                           Upload.size := bytes;
                           Upload.originalname := "interview" |} |} in
  Multer.initializeRoute "s1" 0 [media "audio" "audio/mpeg" (51 * MB)%N; cv]
    (Some "Backend engineer") ∅
  = (∅, Json 500 (Failed (fail "Internal server error")), [])
  /\ Multer.initializeRoute "s1" 0 [media "video" "video/mp4" (12 * MB)%N; cv]
       (Some "Backend engineer") ∅
     = (∅, Json 400 (Failed (fail "Video file too large")), [])
  /\ Multer.initializeRoute "s1" 0 [media "audio" "text/plain" (1 * MB)%N; cv]
       (Some "Backend engineer") ∅
     = (∅, Json 500 (Failed (fail "Internal server error")), []).
Proof. repeat split. Qed.
